(** * SPACE_TASKS: the satellite-catalogue normalisation and reconciliation core

    A shallow embedding of [parse_satcat_UCS_for_bounty.py]: the fixed-width
    parser [parse_celestrak_row], the value coercer [format], the fingerprint
    [fingerprint_line] and the reconciliation pass [fix_discrepencies].

    Conventions of the embedding.
    - A Python [str] is a [string]; a character is a code point below 256.
    - A Python [int] is a [Z]; a [float] is a binary64 value kept exactly as
      sign, mantissa and binary exponent.
    - An exception is a [Raise] result; a parse whose every exception the
      caller swallows ([try: ... except: pass]) returns an [option].
    - A pandas frame with its default [RangeIndex] is the list of its rows, a
      row being a map from the column labels to cell values. A cell keeps
      the value it is given: the dtype a column takes, and the cast it
      applies to the numbers and nulls stored in it, are not modelled. What
      is stated of the cells of a frame is stated of strings, of the
      columns no assignment addresses, and of the warnings logged.
    - [random.randint] is an oracle: the value of each call, by its number.
    - Reading the two sources over the network and writing to the database
      are outside the embedding; [load_celestrak_satcat_data] starts from the
      lines read and the [update_..._table] functions end with the batch. *)

From Stdlib Require Import ZArith NArith List String Ascii Bool Lia.
Import ListNotations.
Open Scope string_scope.
Open Scope Z_scope.

(** ** Exceptions *)

Inductive exn : Type :=
| KeyError
| ValueError
| AttributeError
| IndexError.

Inductive result (A : Type) : Type :=
| Ok (a : A)
| Raise (e : exn).

Arguments Ok {A} a.
Arguments Raise {A} e.

Definition bind {A B : Type} (r : result A) (k : A -> result B) : result B :=
  match r with
  | Ok a => k a
  | Raise e => Raise e
  end.

Notation "x <- r ;; k" := (bind r (fun x => k))
  (at level 61, r at next level, right associativity).

(** [mapM f l]: a list comprehension whose body may raise. *)
Fixpoint mapM {A B : Type} (f : A -> result B) (l : list A) : result (list B) :=
  match l with
  | [] => Ok []
  | a :: l' => b <- f a ;; bs <- mapM f l' ;; Ok (b :: bs)
  end.

(** ** Characters and strings *)

Definition code (c : ascii) : Z := Z.of_N (N_of_ascii c).

(** [str.isspace] on the code points below 256. *)
Definition isspace (c : ascii) : bool :=
  let n := code c in
  ((9 <=? n) && (n <=? 13)) || ((28 <=? n) && (n <=? 32))
  || (n =? 133) || (n =? 160).

(** What [int] and [float] skip around a number: C's [Py_ISSPACE], and the
    two Unicode spaces above 127 that CPython first rewrites to a blank. *)
Definition c_isspace (c : ascii) : bool :=
  let n := code c in
  ((9 <=? n) && (n <=? 13)) || (n =? 32) || (n =? 133) || (n =? 160).

Fixpoint lstrip_by (sp : ascii -> bool) (s : string) : string :=
  match s with
  | "" => ""
  | String c r => if sp c then lstrip_by sp r else s
  end.

Fixpoint rstrip_by (sp : ascii -> bool) (s : string) : string :=
  match s with
  | "" => ""
  | String c r =>
      match rstrip_by sp r with
      | "" => if sp c then "" else String c ""
      | r' => String c r'
      end
  end.

(** [val.strip()] *)
Definition strip (s : string) : string := rstrip_by isspace (lstrip_by isspace s).

(** [val.replace(old, "")] for a one-character [old]. *)
Fixpoint replace_del (old : ascii) (s : string) : string :=
  match s with
  | "" => ""
  | String c r =>
      if (c =? old)%char then replace_del old r else String c (replace_del old r)
  end.

Fixpoint all_chars (p : ascii -> bool) (s : string) : bool :=
  match s with
  | "" => true
  | String c r => p c && all_chars p r
  end.

(** [line[a:b]] for [0 <= a <= b]: a slice never raises. *)
Definition slice (a b : nat) (line : string) : string := substring a (b - a) line.

(** [line[i]] for [0 <= i]: indexing raises past the end. *)
Definition index (i : nat) (line : string) : result string :=
  match get i line with
  | Some c => Ok (String c "")
  | None => Raise IndexError
  end.

(** ** [int(str)] *)

Definition digit_val (c : ascii) : option Z :=
  let n := code c in
  if (48 <=? n) && (n <=? 57) then Some (n - 48) else None.

Definition is_digit (c : ascii) : bool :=
  match digit_val c with Some _ => true | None => false end.

(** The scan of [PyLong_FromString] over a run of digits and underscores:
    two underscores in a row or one at the end are refused. [prev] is the
    character just read. *)
Fixpoint int_digits (acc : Z) (prev : ascii) (s : string) : option (Z * string) :=
  match s with
  | "" => if (prev =? "_")%char then None else Some (acc, "")
  | String c r =>
      match digit_val c with
      | Some d => int_digits (10 * acc + d) c r
      | None =>
          if (c =? "_")%char then
            if (prev =? "_")%char then None else int_digits acc c r
          else if (prev =? "_")%char then None else Some (acc, s)
      end
  end.

Definition split_sign (s : string) : bool * string :=
  match s with
  | String "+" r => (false, r)
  | String "-" r => (true, r)
  | _ => (false, s)
  end.

(** The digits in the run of digits and underscores a string starts with:
    what the scan counts against the limit on the length of an integer. *)
Fixpoint count_digits (s : string) : Z :=
  match s with
  | "" => 0
  | String c r =>
      if is_digit c then 1 + count_digits r
      else if (c =? "_")%char then count_digits r
      else 0
  end.

(** [sys.get_int_max_str_digits()], at its default. *)
Definition int_max_str_digits : Z := 4300.

(** [int(s)], base 10: blanks, a sign, digits that start with a digit and
    are no more than [int_max_str_digits], blanks, the end. [None] is
    [ValueError]. *)
Definition py_int (s : string) : option Z :=
  let (neg, body) := split_sign (lstrip_by c_isspace s) in
  match body with
  | "" => None
  | String c _ =>
      if is_digit c then
        match int_digits 0 zero body with
        | Some (n, rest) =>
            if int_max_str_digits <? count_digits body then None
            else if all_chars c_isspace rest then Some (if neg then - n else n)
            else None
        | None => None
        end
      else None
  end.


(** ** [str(int)] *)

Definition digit_char (k : Z) : ascii := ascii_of_N (Z.to_N (48 + k)).

(** The decimal digits of [n], most significant first, put before [acc]. *)
Fixpoint digits_acc (fuel : nat) (n : Z) (acc : string) : string :=
  match fuel with
  | O => acc
  | S fuel' =>
      let acc' := String (digit_char (n mod 10)) acc in
      if n <? 10 then acc' else digits_acc fuel' (n / 10) acc'
  end.

(** [str(n)] for [0 <= n]: a number has at most [log2 n + 1] digits. *)
Definition str_nat (n : Z) : string := digits_acc (S (Z.to_nat (Z.log2 n))) n "".

Definition str_int (n : Z) : string :=
  if n <? 0 then String "-" (str_nat (- n)) else str_nat n.

(** ** [float]: binary64 *)

(** A finite float is [(-1)^neg * m * 2^e] with [0 <= m < 2^53] and
    [-1074 <= e <= 971]; [m < 2^52] only when [e = -1074] (subnormal), and
    zero is [m = 0], [e = 0]. *)
Inductive float64 : Type :=
| Fnan
| Finf (neg : bool)
| Ffin (neg : bool) (m e : Z).

(** [n / d] rounded to the nearest integer, ties to even ([0 <= n], [0 < d]). *)
Definition round_half_even (n d : Z) : Z :=
  let q := n / d in
  let r := n mod d in
  if 2 * r <? d then q
  else if d <? 2 * r then q + 1
  else if Z.even q then q else q + 1.

(** The float nearest to [n / d] ([0 <= n], [0 < d]), as a correctly rounded
    conversion gives it. *)
Definition float_of_ratio (neg : bool) (n d : Z) : float64 :=
  if n =? 0 then Ffin neg 0 0
  else
    let l := Z.log2 n - Z.log2 d in
    let l := if (if 0 <=? l then d * 2 ^ l <=? n else d <=? n * 2 ^ (- l))
             then l else l - 1 in
    let e := Z.max (l - 52) (-1074) in
    let m := if 0 <=? e then round_half_even n (d * 2 ^ e)
             else round_half_even (n * 2 ^ (- e)) d in
    let (m, e) := if m =? 2 ^ 53 then (2 ^ 52, e + 1) else (m, e) in
    if 971 <? e then Finf neg
    else if m =? 0 then Ffin neg 0 0
    else Ffin neg m e.

(** The float nearest to [digits * 10^exp10] ([0 <= digits]). A number of
    [10^400] or more is infinite and one below [10^-330] is zero: these two
    are answered without the power, as [strtod] does. *)
Definition float_of_decimal (neg : bool) (digits exp10 : Z) : float64 :=
  if digits =? 0 then Ffin neg 0 0
  else if 400 <? exp10 then Finf neg
  else if exp10 + Z.log2 digits / 3 + 1 <? -330 then Ffin neg 0 0
  else if 0 <=? exp10 then float_of_ratio neg (digits * 10 ^ exp10) 1
  else float_of_ratio neg digits (10 ^ (- exp10)).

Definition isnan (f : float64) : bool :=
  match f with Fnan => true | _ => false end.

(** [Some k] when the float is the whole number [k] ([f.is_integer()], then
    [int(f)]). *)
Definition float_integral (f : float64) : option Z :=
  match f with
  | Ffin neg m e =>
      let sgn := if neg then -1 else 1 in
      if 0 <=? e then Some (sgn * (m * 2 ^ e))
      else if m mod 2 ^ (- e) =? 0 then Some (sgn * (m / 2 ^ (- e)))
      else None
  | _ => None
  end.

(** ** [float(str)] *)

(** An underscore must stand between two digits; the others are dropped. *)
Fixpoint drop_underscores (prev : ascii) (s : string) : option string :=
  match s with
  | "" => if (prev =? "_")%char then None else Some ""
  | String c r =>
      if (c =? "_")%char then
        if is_digit prev then drop_underscores c r else None
      else if (prev =? "_")%char && negb (is_digit c) then None
      else option_map (String c) (drop_underscores c r)
  end.

Definition tolower (c : ascii) : ascii :=
  let n := code c in
  if (65 <=? n) && (n <=? 90) then ascii_of_N (Z.to_N (n + 32)) else c.

(** [case_insensitive_match(s, t)]: what is left of [s] after the lower-case
    word [t]. *)
Fixpoint ci_match (t s : string) : option string :=
  match t with
  | "" => Some s
  | String a t' =>
      match s with
      | String c s' => if (tolower c =? a)%char then ci_match t' s' else None
      | "" => None
      end
  end.

(** [_Py_parse_inf_or_nan] *)
Definition parse_inf_or_nan (s : string) : option (float64 * string) :=
  let (neg, body) := split_sign s in
  match ci_match "inf" body with
  | Some rest =>
      match ci_match "inity" rest with
      | Some rest' => Some (Finf neg, rest')
      | None => Some (Finf neg, rest)
      end
  | None =>
      match ci_match "nan" body with
      | Some rest => Some (Fnan, rest)
      | None => None
      end
  end.

(** A run of digits: the number read so far, how many were read, the rest. *)
Fixpoint take_digits (acc cnt : Z) (s : string) : Z * Z * string :=
  match s with
  | "" => (acc, cnt, "")
  | String c r =>
      match digit_val c with
      | Some d => take_digits (10 * acc + d) (cnt + 1) r
      | None => (acc, cnt, s)
      end
  end.

(** [_Py_dg_strtod]: a sign, digits, a point and digits, an exponent; at least
    one digit before the exponent, and an [e] that no digit follows is left
    unread. *)
Definition strtod (s : string) : option (float64 * string) :=
  let (neg, s1) := split_sign s in
  let '(ip, n1, s2) := take_digits 0 0 s1 in
  let '(mant, n2, s3) :=
    match s2 with
    | String "." r => take_digits ip 0 r
    | _ => (ip, 0, s2)
    end in
  if n1 + n2 =? 0 then None
  else
    let (ex, s4) :=
      match s3 with
      | String c r =>
          if (c =? "e")%char || (c =? "E")%char then
            let (eneg, r1) := split_sign r in
            let '(ev, en, r2) := take_digits 0 0 r1 in
            if en =? 0 then (0, s3) else (if eneg then - ev else ev, r2)
          else (0, s3)
      | "" => (0, s3)
      end in
    Some (float_of_decimal neg mant (ex - n2), s4).

(** [float(s)]: blanks off both ends, underscores checked and dropped, then
    [inf], [infinity], [nan] or a decimal number up to the end. [None] is
    [ValueError]. *)
Definition py_float (s : string) : option float64 :=
  match drop_underscores zero (rstrip_by c_isspace (lstrip_by c_isspace s)) with
  | None => None
  | Some t =>
      match parse_inf_or_nan t with
      | Some (f, rest) => if (rest =? "")%string then Some f else None
      | None =>
          match strtod t with
          | Some (f, rest) => if (rest =? "")%string then Some f else None
          | None => None
          end
      end
  end.

(** ** [repr(float)] *)

Fixpoint zeros (n : nat) : string :=
  match n with
  | O => ""
  | S n' => String "0" (zeros n')
  end.

(** The shortest decimal [c * 10^q] that reads back as the float
    [m * 2^e] (the closest to it when two do, the even one when the two are
    as close): the scale [q] goes down from [q0] until the number below or
    the number above [m * 2^e] reads back. *)
Fixpoint shortest (fuel : nat) (m e q : Z) : Z * Z :=
  match fuel with
  | O => (0, q)
  | S fuel' =>
      (* v = vn / vd is m * 2^e / 10^q *)
      let vn := (if 0 <=? e then m * 2 ^ e else m) * (if 0 <=? q then 1 else 10 ^ (- q)) in
      let vd := (if 0 <=? e then 1 else 2 ^ (- e)) * (if 0 <=? q then 10 ^ q else 1) in
      let lo := vn / vd in
      let hi := lo + 1 in
      let back c :=
        match float_of_decimal false c q with
        | Ffin _ m' e' => (m' =? m) && (e' =? e)
        | _ => false
        end in
      match back lo, back hi with
      | true, true =>
          if 2 * (vn mod vd) <? vd then (lo, q)
          else if vd <? 2 * (vn mod vd) then (hi, q)
          else if Z.even lo then (lo, q) else (hi, q)
      | true, false => (lo, q)
      | false, true => (hi, q)
      | false, false => shortest fuel' m e (q - 1)
      end
  end.

(** [repr(f)], which is also [str(f)]. *)
Definition float_repr (f : float64) : string :=
  match f with
  | Fnan => "nan"
  | Finf neg => if neg then "-inf" else "inf"
  | Ffin neg m e =>
      let sign := if neg then "-" else "" in
      if m =? 0 then sign ++ "0.0"
      else
        let q0 := (Z.log2 m + e + 2) * 30103 / 100000 + 1 in
        let (c, q) := shortest 30 m e q0 in
        let ds := str_nat c in
        let n := Z.of_nat (length ds) in
        let decpt := n + q in
        if (decpt <=? -4) || (16 <? decpt) then
          let ex := decpt - 1 in
          let frac := match ds with
                      | String d "" => String d ""
                      | String d r => String d (String "." r)
                      | "" => ""
                      end in
          let ed := str_nat (Z.abs ex) in
          sign ++ frac ++ "e" ++ (if ex <? 0 then "-" else "+")
               ++ (if Z.abs ex <? 10 then "0" else "") ++ ed
        else if decpt <=? 0 then
          sign ++ "0." ++ zeros (Z.to_nat (- decpt)) ++ ds
        else if n <=? decpt then
          sign ++ ds ++ zeros (Z.to_nat (decpt - n)) ++ ".0"
        else
          sign ++ substring 0 (Z.to_nat decpt) ds ++ "."
               ++ substring (Z.to_nat decpt) (Z.to_nat (n - decpt)) ds
  end.

(** ** [datetime.date] and [datetime.strptime] *)

Record date : Type := mkdate { year : Z; month : Z; day : Z }.

Definition is_leap (y : Z) : bool :=
  (y mod 4 =? 0) && (negb (y mod 100 =? 0) || (y mod 400 =? 0)).

Definition days_in_month (y m : Z) : Z :=
  if (m =? 2) then (if is_leap y then 29 else 28)
  else if (m =? 4) || (m =? 6) || (m =? 9) || (m =? 11) then 30
  else 31.

(** The constructor [date(y, m, d)]: [None] is its [ValueError]. *)
Definition new_date (y m d : Z) : option date :=
  if (1 <=? y) && (y <=? 9999) && (1 <=? m) && (m <=? 12)
     && (1 <=? d) && (d <=? days_in_month y m)
  then Some (mkdate y m d) else None.

(** [date.isoformat()], which is [str(date)]. *)
Definition pad (width : nat) (s : string) : string := zeros (width - length s) ++ s.

Definition isoformat (d : date) : string :=
  pad 4 (str_nat (year d)) ++ "-" ++ pad 2 (str_nat (month d)) ++ "-"
      ++ pad 2 (str_nat (day d)).

(** The directives the source uses, and literal characters. *)
Inductive directive : Type :=
| dir_m
| dir_d
| dir_y
| dir_Y
| lit (c : ascii).

(** A format string as its directives; [None] for a directive outside the
    model or a trailing [%]. *)
Fixpoint directives (fmt : string) : option (list directive) :=
  match fmt with
  | "" => Some []
  | String "%" (String c r) =>
      match (if (c =? "m")%char then Some dir_m
             else if (c =? "d")%char then Some dir_d
             else if (c =? "y")%char then Some dir_y
             else if (c =? "Y")%char then Some dir_Y
             else None) with
      | Some d => option_map (cons d) (directives r)
      | None => None
      end
  | String "%" "" => None
  | String c r => option_map (cons (lit c)) (directives r)
  end.

(** One character of a regular expression: a range, a character, [\d]. *)
Inductive atom : Type :=
| Range (lo hi : ascii)
| Ch (c : ascii)
| Digit.

Definition atom_ok (a : atom) (c : ascii) : bool :=
  match a with
  | Range lo hi => (code lo <=? code c) && (code c <=? code hi)
  | Ch x => (c =? x)%char
  | Digit => is_digit c
  end.

(** The alternatives of each directive, in the order [_strptime.TimeRE] lists
    them: [%m] is [1[0-2]|0[1-9]|[1-9]], [%d] is
    [3[0-1]|[1-2]\d|0[1-9]|[1-9]| [1-9]], [%y] is [\d\d], [%Y] is [\d\d\d\d]. *)
Definition alternatives (d : directive) : list (list atom) :=
  match d with
  | dir_m => [[Ch "1"; Range "0" "2"]; [Ch "0"; Range "1" "9"]; [Range "1" "9"]]
  | dir_d => [[Ch "3"; Range "0" "1"]; [Range "1" "2"; Digit];
              [Ch "0"; Range "1" "9"]; [Range "1" "9"]; [Ch " "; Range "1" "9"]]
  | dir_y => [[Digit; Digit]]
  | dir_Y => [[Digit; Digit; Digit; Digit]]
  | lit c => [[Ch c]]
  end.

(** The text one alternative matches at the head of [s], and the rest. *)
Fixpoint match_atoms (al : list atom) (s : string) : option (string * string) :=
  match al with
  | [] => Some ("", s)
  | a :: al' =>
      match s with
      | String c r =>
          if atom_ok a c then
            match match_atoms al' r with
            | Some (txt, rest) => Some (String c txt, rest)
            | None => None
            end
          else None
      | "" => None
      end
  end.

Fixpoint first_some {A B : Type} (f : A -> option B) (l : list A) : option B :=
  match l with
  | [] => None
  | a :: l' => match f a with Some b => Some b | None => first_some f l' end
  end.

(** [format_regex.match(data_string)]: the groups found and the unread rest.
    An alternative is given up when what follows it does not match. *)
Fixpoint match_re (ds : list directive) (s : string)
  : option (list (directive * string) * string) :=
  match ds with
  | [] => Some ([], s)
  | d :: ds' =>
      first_some
        (fun al =>
           match match_atoms al s with
           | Some (txt, rest) =>
               match match_re ds' rest with
               | Some (groups, r) => Some ((d, txt) :: groups, r)
               | None => None
               end
           | None => None
           end)
        (alternatives d)
  end.

(** The loop of [_strptime] over the groups found: year, month, day, from the
    defaults 1900, 1, 1. A two-digit year up to 68 is in the 2000s, one from
    69 in the 1900s. *)
Fixpoint read_groups (groups : list (directive * string)) (ymd : Z * Z * Z)
  : option (Z * Z * Z) :=
  match groups with
  | [] => Some ymd
  | (d, txt) :: groups' =>
      let '(y, m, dd) := ymd in
      match d with
      | lit _ => read_groups groups' ymd
      | _ =>
          match py_int txt with
          | None => None
          | Some n =>
              read_groups groups'
                match d with
                | dir_y => (if n <=? 68 then n + 2000 else n + 1900, m, dd)
                | dir_Y => (n, m, dd)
                | dir_m => (y, n, dd)
                | _ => (y, m, n)
                end
          end
      end
  end.

(** [datetime.strptime(data, fmt).date()]; [None] is [ValueError]: no match,
    unconverted data, or no such day. *)
Definition strptime (data fmt : string) : option date :=
  match directives fmt with
  | None => None
  | Some ds =>
      match match_re ds data with
      | Some (groups, "") =>
          match read_groups groups (1900, 1, 1) with
          | Some (y, m, d) => new_date y m d
          | None => None
          end
      | _ => None
      end
  end.

(** ** Cell values and [format] *)

(** What a cell of a frame holds: [None], [int], [float], their numpy
    scalars as [read_csv] leaves them, [datetime.date], [str], [bool] and
    [numpy.bool_]. *)
Inductive value : Type :=
| VNone
| VInt (n : Z)
| VFloat (f : float64)
| VNpInt (n : Z)
| VNpFloat (f : float64)
| VDate (d : date)
| VStr (s : string)
| VBool (b : bool)
| VNpBool (b : bool).

(** [pd.isna(val)] *)
Definition isna (val : value) : bool :=
  match val with
  | VNone => true
  | VFloat f | VNpFloat f => isnan f
  | _ => false
  end.

(** [val.item()] when [type(val).__module__ == "numpy"] *)
Definition item (val : value) : value :=
  match val with
  | VNpInt n => VInt n
  | VNpFloat f => VFloat f
  | VNpBool b => VBool b
  | _ => val
  end.

Definition format (val : value) : result value :=
  if isna val then Ok VNone
  else
    match item val with
    | VInt n => Ok (VInt n)
    | VFloat f => Ok (VFloat f)
    | VStr s =>
        let val := strip s in
        match py_int (replace_del "," val) with
        | Some n => Ok (VInt n)
        | None =>
        match py_float (replace_del "," val) with
        | Some f => Ok (VFloat f)
        | None =>
        match strptime val "%m/%d/%y" with
        | Some d => Ok (VDate d)
        | None =>
        match strptime val "%m/%d/%Y" with
        | Some d => Ok (VDate d)
        | None =>
        match strptime val "%Y/%m/%d" with
        | Some d => Ok (VDate d)
        | None =>
            if (val =? "")%string || (val =? "N/A")%string then Ok VNone
            else Ok (VStr val)
        end end end end end
    | _ => Raise AttributeError   (* [val.strip()] on a date or a [bool] *)
    end.

(** [str(e)] *)
Definition str (e : value) : string :=
  match e with
  | VNone => "None"
  | VInt n | VNpInt n => str_int n
  | VFloat f | VNpFloat f => float_repr f
  | VDate d => isoformat d
  | VStr s => s
  | VBool b | VNpBool b => if b then "True" else "False"
  end.

(** ** [parse_celestrak_row] *)

(** [0 if not flag else 1] on the character read for a flag. *)
Definition presence (flag : string) : value :=
  if (flag =? "")%string then VInt 0 else VInt 1.

(** The sixteen fields of a catalogue line, in the order of the tuple the
    source returns. Three of them are read by index, not by slice. *)
Definition parse_celestrak_row (line : string) : result (list value) :=
  let intl_desg := slice 0 11 line in
  let norad_number := slice 13 18 line in
  multiple_name_flag <- index 19 line ;;
  let multiple_name_flag := presence multiple_name_flag in
  payload_flag <- index 20 line ;;
  let payload_flag := presence payload_flag in
  ops_status_code <- index 21 line ;;
  let name := slice 23 47 line in
  let source := slice 49 54 line in
  let launch_date := slice 56 66 line in
  let launch_site := slice 69 73 line in
  let decay_date := slice 75 85 line in
  let orbit_period_minutes := slice 87 94 line in
  let inclination_deg := slice 96 101 line in
  let apogee := slice 103 109 line in
  let perigee := slice 111 117 line in
  let radar_crosssec := slice 119 127 line in
  let orbit_status_code := slice 129 132 line in
  Ok [VStr intl_desg; VStr norad_number; multiple_name_flag; payload_flag;
      VStr ops_status_code; VStr name; VStr source; VStr launch_date;
      VStr launch_site; VStr decay_date; VStr orbit_period_minutes;
      VStr inclination_deg; VStr apogee; VStr perigee; VStr radar_crosssec;
      VStr orbit_status_code].

(** ** Frames *)

(** The columns of the tracking catalogue, as [load_celestrak_satcat_data]
    names them. *)
Module Satcat.
Inductive column : Type :=
| intl_desg | norad_num | multiple_name_flag | payload_flag
| ops_status_code | name | source | launch_date | launch_site | decay_date
| orbit_period_minutes | inclination_deg | apogee | perigee
| radar_crosssec | orbit_status_code.

Definition columns : list column :=
  [intl_desg; norad_num; multiple_name_flag; payload_flag; ops_status_code;
   name; source; launch_date; launch_site; decay_date;
   orbit_period_minutes; inclination_deg; apogee; perigee; radar_crosssec;
   orbit_status_code].

(** The place of a column in [columns]. *)
Definition pos (c : column) : nat :=
  match c with
  | intl_desg => 0 | norad_num => 1 | multiple_name_flag => 2
  | payload_flag => 3 | ops_status_code => 4 | name => 5 | source => 6
  | launch_date => 7 | launch_site => 8 | decay_date => 9
  | orbit_period_minutes => 10 | inclination_deg => 11 | apogee => 12
  | perigee => 13 | radar_crosssec => 14 | orbit_status_code => 15
  end%nat.
End Satcat.

(** The columns of the registry, as [load_ucs_satdb_data] names them. *)
Module Satdb.
Inductive column : Type :=
| name | country_registered | country_owner | owner_operator | users
| purpose | purpose_detailed | orbit_class | orbit_type | GEO_longitude
| perigee_km | apogee_km | eccentricity | inclination_degrees
| period_minutes | launch_mass_kg | dry_mass_kg | power_watts | launch_date
| expected_lifetime_years | contractor | contractor_country | launch_site
| launch_vehicle | international_designator | norad_number | comments
| detailed_comments | source_1 | source_2 | source_3 | source_4 | source_5
| source_6 | source_7.

Definition columns : list column :=
  [name; country_registered; country_owner; owner_operator; users; purpose;
   purpose_detailed; orbit_class; orbit_type; GEO_longitude; perigee_km;
   apogee_km; eccentricity; inclination_degrees; period_minutes;
   launch_mass_kg; dry_mass_kg; power_watts; launch_date;
   expected_lifetime_years; contractor; contractor_country; launch_site;
   launch_vehicle; international_designator; norad_number; comments;
   detailed_comments; source_1; source_2; source_3; source_4; source_5;
   source_6; source_7].

Definition pos (c : column) : nat :=
  match c with
  | name => 0 | country_registered => 1 | country_owner => 2
  | owner_operator => 3 | users => 4 | purpose => 5 | purpose_detailed => 6
  | orbit_class => 7 | orbit_type => 8 | GEO_longitude => 9
  | perigee_km => 10 | apogee_km => 11 | eccentricity => 12
  | inclination_degrees => 13 | period_minutes => 14 | launch_mass_kg => 15
  | dry_mass_kg => 16 | power_watts => 17 | launch_date => 18
  | expected_lifetime_years => 19 | contractor => 20
  | contractor_country => 21 | launch_site => 22 | launch_vehicle => 23
  | international_designator => 24 | norad_number => 25 | comments => 26
  | detailed_comments => 27 | source_1 => 28 | source_2 => 29
  | source_3 => 30 | source_4 => 31 | source_5 => 32 | source_6 => 33
  | source_7 => 34
  end%nat.
End Satdb.

Section Frames.
Context {C : Type}.
Variable pos : C -> nat.

(** A row: the cell under each column label. *)
Definition Series : Type := C -> value.

(** A frame with the default [RangeIndex]: row [i] has the label [i]. *)
Definition DataFrame : Type := list Series.

(** A frame whose index is one of its columns: what [set_index] returns. *)
Definition IndexedFrame : Type := list (value * Series).

(** The row [pd.DataFrame(data, columns=...)] makes of one list of cells.
    The cells are kept as given: the dtype pandas infers for a column (a
    null read back as NaN, an integer as a float, in a column of numbers) is
    not modelled. A string, and any cell of a column that holds a string,
    reads back as given. *)
Definition series_of (cells : list value) : Series :=
  fun c => nth (pos c) cells VNone.

(** [df.set_index(col)]: a new frame; [df] itself is not changed. *)
Definition set_index (col : C) (df : DataFrame) : IndexedFrame :=
  map (fun row => (row col, row)) df.

(** [df.itertuples(index=False, name=None)] *)
Definition itertuples (columns : list C) (df : DataFrame) : list (list value) :=
  map (fun row => map row columns) df.

(** [df.loc[key]] on a [RangeIndex]: the row at that place when the key is
    a whole number within the range, [KeyError] for any other key. *)
Definition loc (df : DataFrame) (key : value) : result Series :=
  let at_place k :=
    if (0 <=? k) && (k <? Z.of_nat (List.length df)) then
      match nth_error df (Z.to_nat k) with
      | Some row => Ok row
      | None => Raise KeyError
      end
    else Raise KeyError in
  match key with
  | VInt k | VNpInt k => at_place k
  | VFloat f | VNpFloat f =>
      match float_integral f with
      | Some k => at_place k
      | None => Raise KeyError
      end
  | _ => Raise KeyError
  end.

(** [row.loc[col] = v]. The value is kept as given and no other row is
    touched: the cast to the dtype of the column (an integer stored in a
    column of floats reads back as a float, and a column that takes a value
    it cannot hold is recast as a whole, in every row) is not modelled. A
    string is stored as given, a cell that holds a string is never recast,
    and no assignment touches another column. *)
Definition set_cell (col : C) (v : value) (row : Series) : Series :=
  fun c => if (pos c =? pos col)%nat then v else row c.

Fixpoint update_at (i : nat) (f : Series -> Series) (df : DataFrame) : DataFrame :=
  match df, i with
  | [], _ => []
  | row :: df', O => f row :: df'
  | row :: df', S i' => row :: update_at i' f df'
  end.

(** [df.loc[i, col] = v] for a row label [i] of the frame. *)
Definition set_loc (i : nat) (col : C) (v : value) (df : DataFrame) : DataFrame :=
  update_at i (set_cell col v) df.
End Frames.

Arguments Series C : clear implicits.
Arguments DataFrame C : clear implicits.
Arguments IndexedFrame C : clear implicits.

(** ** [load_celestrak_satcat_data] *)

(** The frame built from the lines the reader yields. The result of
    [set_index] is dropped, so the frame returned keeps its [RangeIndex]. *)
Definition load_celestrak_satcat_data (lines : list string)
  : result (DataFrame Satcat.column) :=
  data <- mapM (fun line => row <- parse_celestrak_row line ;; mapM format row) lines ;;
  let df := map (series_of Satcat.pos) data in
  let _ := set_index Satcat.norad_num df in
  Ok df.

(** ** [hashlib.md5] *)

(** Words are 32-bit integers kept in [Z]; every sum is taken modulo
    [2^32]. *)
Definition w32 (x : Z) : Z := Z.land x 0xffffffff.

Definition rotl (x c : Z) : Z :=
  w32 (Z.lor (Z.shiftl x c) (Z.shiftr x (32 - c))).

(** [line.encode("utf-8")] on code points below 256: one byte below 128, two
    bytes from 128 on. *)
Fixpoint encode_utf8 (s : string) : list Z :=
  match s with
  | "" => []
  | String c r =>
      let n := code c in
      if n <? 128 then n :: encode_utf8 r
      else Z.lor 0xc0 (Z.shiftr n 6) :: Z.lor 0x80 (Z.land n 0x3f) :: encode_utf8 r
  end.

Definition md5_shift : list Z :=
  [7; 12; 17; 22; 7; 12; 17; 22; 7; 12; 17; 22; 7; 12; 17; 22;
   5; 9; 14; 20; 5; 9; 14; 20; 5; 9; 14; 20; 5; 9; 14; 20;
   4; 11; 16; 23; 4; 11; 16; 23; 4; 11; 16; 23; 4; 11; 16; 23;
   6; 10; 15; 21; 6; 10; 15; 21; 6; 10; 15; 21; 6; 10; 15; 21].

(** [floor(2^32 * abs(sin(i + 1)))] for [i] from 0 to 63. *)
Definition md5_sine : list Z :=
    [0xd76aa478; 0xe8c7b756; 0x242070db; 0xc1bdceee;
     0xf57c0faf; 0x4787c62a; 0xa8304613; 0xfd469501;
     0x698098d8; 0x8b44f7af; 0xffff5bb1; 0x895cd7be;
     0x6b901122; 0xfd987193; 0xa679438e; 0x49b40821;
     0xf61e2562; 0xc040b340; 0x265e5a51; 0xe9b6c7aa;
     0xd62f105d; 0x02441453; 0xd8a1e681; 0xe7d3fbc8;
     0x21e1cde6; 0xc33707d6; 0xf4d50d87; 0x455a14ed;
     0xa9e3e905; 0xfcefa3f8; 0x676f02d9; 0x8d2a4c8a;
     0xfffa3942; 0x8771f681; 0x6d9d6122; 0xfde5380c;
     0xa4beea44; 0x4bdecfa9; 0xf6bb4b60; 0xbebfbc70;
     0x289b7ec6; 0xeaa127fa; 0xd4ef3085; 0x04881d05;
     0xd9d4d039; 0xe6db99e5; 0x1fa27cf8; 0xc4ac5665;
     0xf4292244; 0x432aff97; 0xab9423a7; 0xfc93a039;
     0x655b59c3; 0x8f0ccc92; 0xffeff47d; 0x85845dd1;
     0x6fa87e4f; 0xfe2ce6e0; 0xa3014314; 0x4e0811a1;
     0xf7537e82; 0xbd3af235; 0x2ad7d2bb; 0xeb86d391].

(** The little-endian bytes of a number, [n] of them. *)
Fixpoint le_bytes (n : nat) (x : Z) : list Z :=
  match n with
  | O => []
  | S n' => Z.land x 0xff :: le_bytes n' (Z.shiftr x 8)
  end.

Fixpoint le_word (bytes : list Z) : Z :=
  match bytes with
  | [] => 0
  | b :: bytes' => Z.lor b (Z.shiftl (le_word bytes') 8)
  end.

(** The message, a [0x80] byte, zero bytes up to 56 modulo 64, and the length
    of the message in bits on eight bytes. *)
Definition md5_pad (msg : list Z) : list Z :=
  let len := Z.of_nat (List.length msg) in
  let fill := Z.to_nat ((55 - len) mod 64) in
  (msg ++ 128 :: repeat 0 fill ++ le_bytes 8 ((8 * len) mod 2 ^ 64))%list.

Fixpoint chunks (count size : nat) (l : list Z) : list (list Z) :=
  match count with
  | O => []
  | S count' => firstn size l :: chunks count' size (skipn size l)
  end.

Definition md5_state : Type := Z * Z * Z * Z.

(** One of the 64 operations of a block. *)
Definition md5_step (m : list Z) (st : md5_state) (i : nat) : md5_state :=
  let '(a, b, c, d) := st in
  let zi := Z.of_nat i in
  let '(f, g) :=
    if zi <? 16 then (Z.lor (Z.land b c) (Z.land (w32 (Z.lnot b)) d), zi)
    else if zi <? 32 then
      (Z.lor (Z.land d b) (Z.land (w32 (Z.lnot d)) c), (5 * zi + 1) mod 16)
    else if zi <? 48 then (Z.lxor (Z.lxor b c) d, (3 * zi + 5) mod 16)
    else (Z.lxor c (Z.lor b (w32 (Z.lnot d))), (7 * zi) mod 16) in
  let f := w32 (f + a + nth i md5_sine 0 + nth (Z.to_nat g) m 0) in
  (d, w32 (b + rotl f (nth i md5_shift 0)), b, c).

Definition md5_block (st : md5_state) (block : list Z) : md5_state :=
  let m := map le_word (chunks 16 4 block) in
  let '(a, b, c, d) := st in
  let '(a', b', c', d') := fold_left (md5_step m) (seq 0 64) st in
  (w32 (a + a'), w32 (b + b'), w32 (c + c'), w32 (d + d')).

(** [md5(msg).digest()]: sixteen bytes. *)
Definition md5 (msg : list Z) : list Z :=
  let padded := md5_pad msg in
  let '(a, b, c, d) :=
    fold_left md5_block (chunks (List.length padded / 64) 64 padded)
              (0x67452301, 0xefcdab89, 0x98badcfe, 0x10325476) in
  (le_bytes 4 a ++ le_bytes 4 b ++ le_bytes 4 c ++ le_bytes 4 d)%list.

Definition hex_digit (n : Z) : ascii :=
  if n <? 10 then ascii_of_N (Z.to_N (48 + n)) else ascii_of_N (Z.to_N (87 + n)).

(** [.hexdigest()]: two lower-case hexadecimal digits a byte. *)
Fixpoint hexdigest (bytes : list Z) : string :=
  match bytes with
  | [] => ""
  | b :: bytes' =>
      String (hex_digit (Z.shiftr b 4)) (String (hex_digit (Z.land b 0xf)) (hexdigest bytes'))
  end.

(** ** [fingerprint_line] and the rows handed to the sink *)

Definition fingerprint_line (line : string) : string :=
  hexdigest (md5 (encode_utf8 line)).

(** ["".join(str(e) for e in row)] *)
Definition join_str (row : list value) : string :=
  fold_right (fun e acc => str e ++ acc) "" row.

Definition record_fingerprint (row : list value) : string :=
  fingerprint_line (join_str row).

(** [[format(i) for i in row] + [record_fingerprint]] *)
Definition savable (row : list value) : result (list value) :=
  cells <- mapM format row ;;
  Ok (cells ++ [VStr (record_fingerprint row)])%list.

(** The batch the three [update_..._table] functions hand to the sink. *)
Definition data_batch {C : Type} (columns : list C) (df : DataFrame C)
  : result (list (list value)) :=
  mapM savable (itertuples columns df).


(** ** [fix_discrepencies] *)

Definition placeholder : string := "BLAH BLAH BLAH".

(** The text of [log.warning]: the f-string of the source, its line break and
    indentation included. *)
Definition warning (norad_number : value) : string :=
  "Satellite with norad number " ++ str norad_number
    ++ " in satdb is not found in the Celestrak Catalog."
    ++ String "010" "                    Relying on SatDB data only.".

(** What the loop carries: the registry as changed so far, the warnings
    logged, and how many times [random.randint] was called. *)
Record run : Type := mkrun {
  frame : DataFrame Satdb.column;
  warnings : list string;
  drawn : nat
}.

(** The body of the loop for the row of label [i]. [randint k] is what the
    call number [k] of [random.randint(1, 101)] returns. The [try] covers
    the look-up and the assignments; [format] is called before it. *)
Definition fix_row (satcat : DataFrame Satcat.column) (randint : nat -> Z)
    (i : nat) (satdb_row : Series Satdb.column) (st : run) : result run :=
  norad_number <- format (satdb_row Satdb.norad_number) ;;
  match loc satcat norad_number with
  | Ok satcat_row =>
      let satdb := frame st in
      let satdb := set_loc Satdb.pos i Satdb.name (satcat_row Satcat.name) satdb in
      let satdb := set_loc Satdb.pos i Satdb.perigee_km (satcat_row Satcat.perigee) satdb in
      let satdb := set_loc Satdb.pos i Satdb.apogee_km (satcat_row Satcat.apogee) satdb in
      let satdb := set_loc Satdb.pos i Satdb.inclination_degrees
                           (satcat_row Satcat.inclination_deg) satdb in
      let satdb := set_loc Satdb.pos i Satdb.period_minutes
                           (satcat_row Satcat.orbit_period_minutes) satdb in
      let satdb := set_loc Satdb.pos i Satdb.launch_date (satcat_row Satcat.launch_date) satdb in
      let satdb := set_loc Satdb.pos i Satdb.launch_site (satcat_row Satcat.launch_site) satdb in
      let satdb := set_loc Satdb.pos i Satdb.international_designator
                           (satcat_row Satcat.intl_desg) satdb in
      let satdb :=
        if randint (drawn st) <? 3
        then set_loc Satdb.pos i Satdb.name (VStr placeholder) satdb
        else satdb in
      Ok (mkrun satdb (warnings st) (S (drawn st)))
  | Raise KeyError | Raise ValueError =>
      Ok (mkrun (frame st) (warnings st ++ [warning norad_number]) (drawn st))
  | Raise e => Raise e
  end.

(** [satdb.iterrows()]: the labels and rows of the frame as it stands when
    the loop starts. *)
Definition iterrows {C : Type} (df : DataFrame C) : list (nat * Series C) :=
  combine (seq 0 (List.length df)) df.

Fixpoint fix_rows (satcat : DataFrame Satcat.column) (randint : nat -> Z)
    (rows : list (nat * Series Satdb.column)) (st : run) : result run :=
  match rows with
  | [] => Ok st
  | (i, satdb_row) :: rows' =>
      st' <- fix_row satcat randint i satdb_row st ;;
      fix_rows satcat randint rows' st'
  end.

(** The registry after the pass, and the warnings it logged. *)
Definition fix_discrepencies (satdb : DataFrame Satdb.column)
    (satcat : DataFrame Satcat.column) (randint : nat -> Z)
  : result (DataFrame Satdb.column * list string) :=
  st <- fix_rows satcat randint (iterrows satdb) (mkrun satdb [] 0) ;;
  Ok (frame st, warnings st).

(** ** Definitions used to state the properties *)

Definition nonspace (c : ascii) : bool := negb (isspace c).

(** The characters of a date written with digits and slashes. *)
Definition date_char (c : ascii) : bool := is_digit c || (c =? "/")%char.

(** A month, a day or a two-digit year as [MM], [DD] or [YY]. *)
Definition two_digits (n : Z) : string :=
  String (digit_char (n / 10)) (String (digit_char (n mod 10)) "").

(** A year as [YYYY]. *)
Definition four_digits (n : Z) : string :=
  String (digit_char (n / 1000))
    (String (digit_char (n / 100 mod 10))
       (String (digit_char (n / 10 mod 10)) (String (digit_char (n mod 10)) ""))).

(** The three ways the source reads a date, written out in full. *)
Definition mdy (m d yy : Z) : string :=
  two_digits m ++ String "/" (two_digits d ++ String "/" (two_digits yy)).

Definition mdY (m d y : Z) : string :=
  two_digits m ++ String "/" (two_digits d ++ String "/" (four_digits y)).

Definition Ymd (y m d : Z) : string :=
  four_digits y ++ String "/" (two_digits m ++ String "/" (two_digits d)).

(** What the look-up of a registry row comes to: the catalogue row found,
    the key that was not found, or the exception that leaves the loop. *)
Inductive outcome : Type :=
| Hit (satcat_row : Series Satcat.column)
| Miss (norad_number : value)
| Crash (e : exn).

Definition look_up (satcat : DataFrame Satcat.column)
    (satdb_row : Series Satdb.column) : outcome :=
  match format (satdb_row Satdb.norad_number) with
  | Raise e => Crash e
  | Ok norad_number =>
      match loc satcat norad_number with
      | Ok satcat_row => Hit satcat_row
      | Raise KeyError | Raise ValueError => Miss norad_number
      | Raise e => Crash e
      end
  end.

Definition is_hit (satcat : DataFrame Satcat.column)
    (satdb_row : Series Satdb.column) : bool :=
  match look_up satcat satdb_row with Hit _ => true | _ => false end.

Definition no_crash (satcat : DataFrame Satcat.column)
    (satdb_row : Series Satdb.column) : bool :=
  match look_up satcat satdb_row with Crash _ => false | _ => true end.

(** The number of rows found in the catalogue: as many calls of
    [random.randint] as the loop makes on these rows. *)
Definition hits (satcat : DataFrame Satcat.column)
    (rows : list (Series Satdb.column)) : nat :=
  List.length (filter (is_hit satcat) rows).

(** The warnings the loop logs on these rows. *)
Definition missed (satcat : DataFrame Satcat.column)
    (rows : list (Series Satdb.column)) : list string :=
  flat_map (fun row => match look_up satcat row with
                       | Miss norad_number => [warning norad_number]
                       | _ => []
                       end) rows.

(** The nine assignments of the loop body on the row they all address. *)
Definition override (satcat_row : Series Satcat.column) (draw : Z)
    (row : Series Satdb.column) : Series Satdb.column :=
  let row := set_cell Satdb.pos Satdb.name (satcat_row Satcat.name) row in
  let row := set_cell Satdb.pos Satdb.perigee_km (satcat_row Satcat.perigee) row in
  let row := set_cell Satdb.pos Satdb.apogee_km (satcat_row Satcat.apogee) row in
  let row := set_cell Satdb.pos Satdb.inclination_degrees
                      (satcat_row Satcat.inclination_deg) row in
  let row := set_cell Satdb.pos Satdb.period_minutes
                      (satcat_row Satcat.orbit_period_minutes) row in
  let row := set_cell Satdb.pos Satdb.launch_date (satcat_row Satcat.launch_date) row in
  let row := set_cell Satdb.pos Satdb.launch_site (satcat_row Satcat.launch_site) row in
  let row := set_cell Satdb.pos Satdb.international_designator
                      (satcat_row Satcat.intl_desg) row in
  if draw <? 3 then set_cell Satdb.pos Satdb.name (VStr placeholder) row else row.

(** What the loop body does to the row it addresses. *)
Definition patch (satcat : DataFrame Satcat.column) (draw : Z)
    (satdb_row : Series Satdb.column) : Series Satdb.column -> Series Satdb.column :=
  match look_up satcat satdb_row with
  | Hit satcat_row => override satcat_row draw
  | _ => fun row => row
  end.

(** The eight columns the loop body assigns. *)
Definition overridden (c : Satdb.column) : bool :=
  match c with
  | Satdb.name | Satdb.perigee_km | Satdb.apogee_km | Satdb.inclination_degrees
  | Satdb.period_minutes | Satdb.launch_date | Satdb.launch_site
  | Satdb.international_designator => true
  | _ => false
  end.

(** Two lines of the catalogue in its published layout, the first also with
    the catalogue number 0, and rows of the two frames, to run the pass on. *)
Definition sample_lines : list string :=
  ["1957-001A    00001   D SL-1 R/B                  CIS    1957-10-04  TYMSC  1957-12-01     96.1   65.1     938     214   20.4200     ";
   "1957-001B    00002  *D SPUTNIK 1                 CIS    1957-10-04  TYMSC  1958-01-03     96.1   65.0    1080      64       N/A     "].

Definition zero_line : string :=
  "1957-001A    00000   D SL-1 R/B                  CIS    1957-10-04  TYMSC  1957-12-01     96.1   65.1     938     214   20.4200     ".

Definition catalogue_row (intl_desg : string) (norad_num : Z) (name : string)
    (perigee : Z) : Series Satcat.column :=
  series_of Satcat.pos
    [VStr intl_desg; VInt norad_num; VInt 1; VInt 1; VStr "D"; VStr name;
     VStr "CIS"; VStr "1957-10-04"; VStr "YMSC"; VNone; VInt 96; VInt 65;
     VInt 938; VInt perigee; VNone; VNone].

Definition registry_row (name : string) (norad_number : value) : Series Satdb.column :=
  fun c =>
    match c with
    | Satdb.name => VStr name
    | Satdb.country_registered => VStr "USSR"
    | Satdb.perigee_km => VNpInt 215
    | Satdb.norad_number => norad_number
    | Satdb.comments => VStr "first of its kind"
    | _ => VNpFloat Fnan
    end.

(** The column of the catalogue each assignment of the loop body reads. *)
Definition source (c : Satdb.column) : option Satcat.column :=
  match c with
  | Satdb.name => Some Satcat.name
  | Satdb.perigee_km => Some Satcat.perigee
  | Satdb.apogee_km => Some Satcat.apogee
  | Satdb.inclination_degrees => Some Satcat.inclination_deg
  | Satdb.period_minutes => Some Satcat.orbit_period_minutes
  | Satdb.launch_date => Some Satcat.launch_date
  | Satdb.launch_site => Some Satcat.launch_site
  | Satdb.international_designator => Some Satcat.intl_desg
  | _ => None
  end.

(** The cells of one column after the pass, and the warnings logged. *)
Definition column_after (c : Satdb.column)
    (r : result (DataFrame Satdb.column * list string))
  : result (list value * list string) :=
  out <- r ;; Ok (map (fun row => row c) (fst out), snd out).

Definition is_date (v : value) : bool :=
  match v with VDate _ => true | _ => false end.

(** A value [format] cannot [strip]: one that is no null, no number and no
    string. *)
Definition no_strip (v : value) : bool :=
  match v with VDate _ | VBool _ | VNpBool _ => true | _ => false end.

(** A day of the calendar [datetime.date] accepts. *)
Definition valid_date (d : date) : bool :=
  (1 <=? year d) && (year d <=? 9999) && (1 <=? month d) && (month d <=? 12)
  && (1 <=? day d) && (day d <=? days_in_month (year d) (month d)).

Definition no_slash (c : ascii) : bool := negb (c =? "/")%char.

Definition is_hex (c : ascii) : bool :=
  is_digit c || ((code "a" <=? code c) && (code c <=? code "f")).

(** * Properties *)

(** * Characters *)

Ltac by_bits c := destruct c as [[] [] [] [] [] [] [] []]; try discriminate; try reflexivity.

Lemma digit_val_char k : 0 <= k < 10 -> digit_val (digit_char k) = Some k.
Proof.
  intros H.
  assert (k = 0 \/ k = 1 \/ k = 2 \/ k = 3 \/ k = 4 \/ k = 5 \/ k = 6 \/ k = 7
          \/ k = 8 \/ k = 9) as Hk by lia.
  repeat (destruct Hk as [-> | Hk]; [reflexivity |]). subst. reflexivity.
Qed.

Lemma is_digit_char k : 0 <= k < 10 -> is_digit (digit_char k) = true.
Proof. intros H. unfold is_digit. now rewrite digit_val_char. Qed.

Lemma digit_not_space c : is_digit c = true -> isspace c = false /\ c_isspace c = false.
Proof. by_bits c; intros _; split; reflexivity. Qed.

Lemma digit_not_mark c :
  is_digit c = true ->
  (c =? "_")%char = false /\ (c =? ",")%char = false /\ (c =? "/")%char = false.
Proof. by_bits c; intros _; repeat split; reflexivity. Qed.

Lemma split_sign_digit c r : is_digit c = true -> split_sign (String c r) = (false, String c r).
Proof. by_bits c. Qed.

Lemma digit_val_bound c d : digit_val c = Some d -> 0 <= d < 10.
Proof.
  unfold digit_val. destruct (_ && _) eqn:E; [|discriminate].
  intros [= <-]. apply andb_prop in E. lia.
Qed.

(** * [str(int)] and [int(str)] *)

Lemma int_digits_step a p c d r :
  digit_val c = Some d -> int_digits a p (String c r) = int_digits (10 * a + d) c r.
Proof. intros H. simpl. now rewrite H. Qed.

(** Reading the digits written by [digits_acc] adds the number to what was
    read before. *)
Lemma int_digits_acc fuel : forall n rest,
  0 <= n < 2 ^ Z.of_nat (S fuel) ->
  exists k c, 0 <= k /\ is_digit c = true /\
    forall a p, int_digits a p (digits_acc (S fuel) n rest)
                = int_digits (a * 10 ^ k + n) c rest.
Proof.
  induction fuel as [|fuel IH]; intros n rest Hn.
  - assert (n < 10) as Hlt by (change (2 ^ Z.of_nat 1) with 2 in Hn; lia).
    simpl. apply Z.ltb_lt in Hlt as ->.
    exists 1, (digit_char (n mod 10)). rewrite Z.mod_small by (change (2 ^ Z.of_nat 1) with 2 in Hn; lia).
    repeat split; [lia | apply is_digit_char; change (2 ^ Z.of_nat 1) with 2 in Hn; lia |].
    intros a p. rewrite (int_digits_step _ _ _ n) by (apply digit_val_char; change (2 ^ Z.of_nat 1) with 2 in Hn; lia).
    f_equal. lia.
  - assert (0 <= n mod 10 < 10) as Hm by (apply Z.mod_pos_bound; lia).
    change (digits_acc (S (S fuel)) n rest)
      with (if n <? 10 then String (digit_char (n mod 10)) rest
            else digits_acc (S fuel) (n / 10) (String (digit_char (n mod 10)) rest)).
    destruct (n <? 10) eqn:E.
    + apply Z.ltb_lt in E. exists 1, (digit_char (n mod 10)).
      rewrite Z.mod_small by lia.
      repeat split; [lia | apply is_digit_char; lia |].
      intros a p. rewrite (int_digits_step _ _ _ n) by (apply digit_val_char; lia).
      f_equal. lia.
    + apply Z.ltb_ge in E.
      destruct (IH (n / 10) (String (digit_char (n mod 10)) rest)) as (k & c & Hk & Hc & Hrd).
      { split; [apply Z.div_pos; lia |].
        apply Z.div_lt_upper_bound; [lia |].
        rewrite Nat2Z.inj_succ, Z.pow_succ_r in Hn by lia. lia. }
      exists (k + 1), (digit_char (n mod 10)).
      repeat split; [lia | apply is_digit_char; lia |].
      intros a p. rewrite Hrd.
      rewrite (int_digits_step _ _ _ (n mod 10)) by (apply digit_val_char; lia).
      f_equal. rewrite Z.pow_add_r by lia.
      pose proof (Z.div_mod n 10). lia.
Qed.

Lemma digits_acc_head fuel : forall n rest,
  0 <= n -> exists c r, digits_acc (S fuel) n rest = String c r /\ is_digit c = true.
Proof.
  induction fuel as [|fuel IH]; intros n rest Hn;
    assert (0 <= n mod 10 < 10) as Hm by (apply Z.mod_pos_bound; lia).
  - simpl. destruct (n <? 10); eexists _, _; (split; [reflexivity | now apply is_digit_char]).
  - change (digits_acc (S (S fuel)) n rest)
      with (if n <? 10 then String (digit_char (n mod 10)) rest
            else digits_acc (S fuel) (n / 10) (String (digit_char (n mod 10)) rest)).
    destruct (n <? 10).
    + eexists _, _; split; [reflexivity | now apply is_digit_char].
    + apply IH. apply Z.div_pos; lia.
Qed.

Lemma str_nat_bound n : 0 <= n -> 0 <= n < 2 ^ Z.of_nat (S (Z.to_nat (Z.log2 n))).
Proof.
  intros Hn. split; [assumption |].
  rewrite Nat2Z.inj_succ, Z2Nat.id by apply Z.log2_nonneg.
  destruct (Z.eq_dec n 0) as [-> | Hz]; [reflexivity |].
  apply Z.log2_spec. lia.
Qed.

Lemma count_digits_nonneg s : 0 <= count_digits s.
Proof.
  induction s as [|c r IH]; cbn [count_digits]; [lia |].
  destruct (is_digit c); [lia |]. destruct (c =? "_")%char; lia.
Qed.

(** A number below [10^k] is written with [k] digits at most. *)
Lemma count_digits_acc fuel : forall n acc k,
  1 <= k -> 0 <= n < 10 ^ k ->
  count_digits (digits_acc fuel n acc) <= k + count_digits acc.
Proof.
  induction fuel as [|fuel IH]; intros n acc k Hk Hn; cbn [digits_acc].
  - lia.
  - assert (0 <= n mod 10 < 10) as Hm by (apply Z.mod_pos_bound; lia).
    assert (count_digits (String (digit_char (n mod 10)) acc) = 1 + count_digits acc) as Hc.
    { cbn [count_digits]. now rewrite is_digit_char. }
    destruct (n <? 10) eqn:E; [rewrite Hc; lia |].
    apply Z.ltb_ge in E.
    assert (2 <= k) as Hk2.
    { destruct (Z.eq_dec k 1) as [-> | Hne]; [change (10 ^ 1) with 10 in Hn; lia | lia]. }
    specialize (IH (n / 10) (String (digit_char (n mod 10)) acc) (k - 1)).
    rewrite Hc in IH. etransitivity; [apply IH; [lia |] | lia].
    split; [apply Z.div_pos; lia |]. apply Z.div_lt_upper_bound; [lia |].
    rewrite <- Z.pow_succ_r by lia. now replace (Z.succ (k - 1)) with k by lia.
Qed.

Lemma py_int_str_nat n :
  0 <= n < 10 ^ int_max_str_digits -> py_int (str_nat n) = Some n.
Proof.
  intros [Hn Hlim]. unfold str_nat.
  pose proof (count_digits_acc (S (Z.to_nat (Z.log2 n))) n "" int_max_str_digits
                ltac:(unfold int_max_str_digits; lia) (conj Hn Hlim)) as Hcount.
  destruct (digits_acc_head (Z.to_nat (Z.log2 n)) n "" Hn) as (c & r & Hs & Hc).
  destruct (int_digits_acc (Z.to_nat (Z.log2 n)) n "" (str_nat_bound n Hn))
    as (k & c' & Hk & Hc' & Hrd).
  unfold py_int. rewrite Hs.
  cbn [lstrip_by]. destruct (digit_not_space c Hc) as [_ ->].
  rewrite split_sign_digit by assumption. rewrite Hc, <- Hs, Hrd.
  cbn [int_digits]. destruct (digit_not_mark c' Hc') as (-> & _).
  cbn [count_digits] in Hcount.
  replace (int_max_str_digits <? _) with false by (symmetry; apply Z.ltb_ge; lia).
  reflexivity.
Qed.

(** Reading back what [str] writes of an integer gives the integer, as long
    as it has no more digits than [int] accepts. *)
Lemma py_int_str_int n :
  Z.abs n < 10 ^ int_max_str_digits -> py_int (str_int n) = Some n.
Proof.
  intros Hlim. unfold str_int. destruct (n <? 0) eqn:E.
  - apply Z.ltb_lt in E.
    pose proof (py_int_str_nat (- n) ltac:(lia)) as H.
    unfold py_int in *. cbn [lstrip_by c_isspace]. 
    change (c_isspace "-") with false. cbn [split_sign].
    destruct (digits_acc_head (Z.to_nat (Z.log2 (- n))) (- n) "" ltac:(lia)) as (c & r & Hs & Hc).
    unfold str_nat in *. rewrite Hs in *.
    cbn [lstrip_by] in H. destruct (digit_not_space c Hc) as [_ Hsp]. rewrite Hsp in H.
    rewrite split_sign_digit in H by assumption.
    rewrite Hc in *.
    destruct (int_digits 0 zero (String c r)) as [[m rest]|]; [|discriminate].
    destruct (int_max_str_digits <? count_digits (String c r)); [discriminate |].
    destruct (all_chars c_isspace rest); [|discriminate].
    injection H as ->. f_equal. lia.
  - apply Z.ltb_ge in E. apply py_int_str_nat. lia.
Qed.

(** * Strings that [strip] and [replace] leave alone *)

Lemma rstrip_nonspace s : all_chars nonspace s = true -> rstrip_by isspace s = s.
Proof.
  induction s as [|c r IH]; [reflexivity |]. cbn [all_chars rstrip_by].
  intros H. apply andb_prop in H as [Hc Hr]. rewrite (IH Hr).
  unfold nonspace in Hc. apply negb_true_iff in Hc. rewrite Hc. now destruct r.
Qed.

Lemma strip_nonspace s : all_chars nonspace s = true -> strip s = s.
Proof.
  intros H. unfold strip.
  replace (lstrip_by isspace s) with s; [now apply rstrip_nonspace |].
  destruct s as [|c r]; [reflexivity |]. cbn [all_chars] in H.
  apply andb_prop in H as [Hc _]. unfold nonspace in Hc. apply negb_true_iff in Hc.
  cbn [lstrip_by]. now rewrite Hc.
Qed.

Lemma nonspace_replace_del s :
  all_chars nonspace (replace_del "," s) = true -> all_chars nonspace s = true.
Proof.
  induction s as [|c r IH]; [reflexivity |]. cbn [replace_del all_chars].
  destruct (c =? ",")%char eqn:E.
  - apply Ascii.eqb_eq in E as ->. intros H. now rewrite (IH H).
  - cbn [all_chars]. intros H. apply andb_prop in H as [-> Hr]. now rewrite (IH Hr).
Qed.

Lemma replace_del_id old s :
  all_chars (fun c => negb (c =? old)%char) s = true -> replace_del old s = s.
Proof.
  induction s as [|c r IH]; [reflexivity |]. cbn [replace_del all_chars].
  intros H. apply andb_prop in H as [Hc Hr]. apply negb_true_iff in Hc.
  now rewrite Hc, (IH Hr).
Qed.

Lemma all_chars_app p s t :
  all_chars p (s ++ t) = all_chars p s && all_chars p t.
Proof.
  induction s as [|c r IH]; [reflexivity |]. cbn [append all_chars].
  now rewrite IH, andb_assoc.
Qed.

Lemma all_chars_digits_acc (p : ascii -> bool) :
  (forall c, is_digit c = true -> p c = true) ->
  forall fuel n acc, 0 <= n -> all_chars p acc = true ->
                     all_chars p (digits_acc fuel n acc) = true.
Proof.
  intros Hp. induction fuel as [|fuel IH]; intros n acc Hn Hacc; [assumption |].
  assert (0 <= n mod 10 < 10) as Hm by (apply Z.mod_pos_bound; lia).
  cbn [digits_acc]. 
  assert (all_chars p (String (digit_char (n mod 10)) acc) = true) as Hd.
  { cbn [all_chars]. rewrite Hacc, Hp; [reflexivity | now apply is_digit_char]. }
  destruct (n <? 10); [assumption |]. apply IH; [apply Z.div_pos; lia | assumption].
Qed.

Lemma all_chars_str_int (p : ascii -> bool) n :
  (forall c, is_digit c = true -> p c = true) -> p "-"%char = true ->
  all_chars p (str_int n) = true.
Proof.
  intros Hp Hminus. unfold str_int, str_nat. destruct (n <? 0) eqn:E.
  - apply Z.ltb_lt in E. cbn [all_chars]. rewrite Hminus.
    apply all_chars_digits_acc; [assumption | lia | reflexivity].
  - apply Z.ltb_ge in E. apply all_chars_digits_acc; [assumption | lia | reflexivity].
Qed.

Lemma nonspace_str_int n : all_chars nonspace (str_int n) = true.
Proof.
  apply all_chars_str_int; [| reflexivity].
  intros c Hc. unfold nonspace. now destruct (digit_not_space c Hc) as [-> _].
Qed.

(** * The value coercer on numbers *)

(** A string that is an integer once its commas are dropped is coerced to that
    integer. *)
Lemma format_thousands s n :
  Z.abs n < 10 ^ int_max_str_digits ->
  replace_del "," s = str_int n -> format (VStr s) = Ok (VInt n).
Proof.
  intros Hlim H. unfold format. cbn [isna item].
  rewrite strip_nonspace by (apply nonspace_replace_del; rewrite H; apply nonspace_str_int).
  now rewrite H, py_int_str_int.
Qed.

(** The order of the steps of [format] on a string. *)
Lemma format_str_steps s :
  format (VStr s) =
  let val := strip s in
  match py_int (replace_del "," val) with
  | Some n => Ok (VInt n)
  | None =>
  match py_float (replace_del "," val) with
  | Some f => Ok (VFloat f)
  | None =>
  match strptime val "%m/%d/%y" with
  | Some d => Ok (VDate d)
  | None =>
  match strptime val "%m/%d/%Y" with
  | Some d => Ok (VDate d)
  | None =>
  match strptime val "%Y/%m/%d" with
  | Some d => Ok (VDate d)
  | None =>
      if (val =? "")%string || (val =? "N/A")%string then Ok VNone else Ok (VStr val)
  end end end end end.
Proof. reflexivity. Qed.

(** C8, as the code has it. The value coercer tries its steps in a fixed
    order and the first that succeeds gives the result: the integer parse,
    then the float parse, then the three date patterns, then the test for
    the empty string and "N/A", then the trimmed string itself. So
    [format "N/A"] and [format ""] are null, [format "  42  "] is the
    integer 42, [format "04/01/2019"] is a date, and every string that is
    the decimal writing of an integer [n] of at most 4300 digits with commas
    put anywhere in it, such as "1,234", is coerced to the integer [n]. *)
Theorem format_precedence :
  (forall s n, py_int (replace_del "," (strip s)) = Some n ->
               format (VStr s) = Ok (VInt n))
  /\ (forall s f, py_int (replace_del "," (strip s)) = None ->
                  py_float (replace_del "," (strip s)) = Some f ->
                  format (VStr s) = Ok (VFloat f))
  /\ (forall s d, py_int (replace_del "," (strip s)) = None ->
                  py_float (replace_del "," (strip s)) = None ->
                  (strptime (strip s) "%m/%d/%y" = Some d
                   \/ strptime (strip s) "%m/%d/%y" = None
                      /\ strptime (strip s) "%m/%d/%Y" = Some d
                   \/ strptime (strip s) "%m/%d/%y" = None
                      /\ strptime (strip s) "%m/%d/%Y" = None
                      /\ strptime (strip s) "%Y/%m/%d" = Some d) ->
                  format (VStr s) = Ok (VDate d))
  /\ (forall s, py_int (replace_del "," (strip s)) = None ->
                py_float (replace_del "," (strip s)) = None ->
                strptime (strip s) "%m/%d/%y" = None ->
                strptime (strip s) "%m/%d/%Y" = None ->
                strptime (strip s) "%Y/%m/%d" = None ->
                format (VStr s) =
                if (strip s =? "")%string || (strip s =? "N/A")%string
                then Ok VNone else Ok (VStr (strip s)))
  /\ format (VStr "N/A") = Ok VNone
  /\ format (VStr "") = Ok VNone
  /\ format (VStr "  42  ") = Ok (VInt 42)
  /\ format (VStr "1,234") = Ok (VInt 1234)
  /\ format (VStr "04/01/2019") = Ok (VDate (mkdate 2019 4 1))
  /\ (forall s n, Z.abs n < 10 ^ int_max_str_digits ->
                  replace_del "," s = str_int n -> format (VStr s) = Ok (VInt n)).
Proof.
  split; [intros s n H; rewrite format_str_steps; cbv zeta; now rewrite H |].
  split; [intros s f Hi Hf; rewrite format_str_steps; cbv zeta; now rewrite Hi, Hf |].
  split.
  { intros s d Hi Hf Hd. rewrite format_str_steps. cbv zeta. rewrite Hi, Hf.
    destruct Hd as [-> | [(-> & ->) | (-> & -> & ->)]]; reflexivity. }
  split.
  { intros s Hi Hf H1 H2 H3. rewrite format_str_steps. cbv zeta.
    now rewrite Hi, Hf, H1, H2, H3. }
  split; [vm_compute; reflexivity |].
  split; [vm_compute; reflexivity |].
  split; [vm_compute; reflexivity |].
  split; [vm_compute; reflexivity |].
  split; [vm_compute; reflexivity |].
  intros s n. apply format_thousands.
Qed.

Lemma format_precedence_witness :
  format (VStr "-12,345,678") = Ok (VInt (-12345678))
  /\ format (VStr " 1,20 ") = Ok (VInt 120)
  /\ format (VStr " 1e3 ") = Ok (VFloat (Ffin false 0x1f400000000000 (-43)))
  /\ format (VStr "12/31/99") = Ok (VDate (mkdate 1999 12 31))
  /\ format (VStr " 2/29/2020") = Ok (VDate (mkdate 2020 2 29))
  /\ format (VStr "2019/04/01 ") = Ok (VDate (mkdate 2019 4 1))
  /\ format (VStr " n/a ")
     = (if (strip " n/a " =? "")%string || (strip " n/a " =? "N/A")%string
        then Ok VNone else Ok (VStr (strip " n/a "))).
Proof.
  destruct format_precedence
    as (Hint & Hfloat & Hdate & Hrest & _ & _ & _ & _ & _ & Hsep).
  split; [apply Hsep; [vm_compute; reflexivity | vm_compute; reflexivity] |].
  split; [apply Hint; vm_compute; reflexivity |].
  split; [apply Hfloat; vm_compute; reflexivity |].
  split.
  { apply Hdate; [vm_compute; reflexivity | vm_compute; reflexivity |].
    left. vm_compute. reflexivity. }
  split.
  { apply Hdate; [vm_compute; reflexivity | vm_compute; reflexivity |].
    right; left. split; vm_compute; reflexivity. }
  split.
  { apply Hdate; [vm_compute; reflexivity | vm_compute; reflexivity |].
    right; right. split; [| split]; vm_compute; reflexivity. }
  apply Hrest; vm_compute; reflexivity.
Defined.

(** The digit 1 followed by [k] zeros reads as [10^k], and a number of
    [2^1100] or more is beyond the largest float. *)
Lemma take_digits_zeros k : forall acc cnt,
  take_digits acc cnt (zeros k) = (acc * 10 ^ Z.of_nat k, cnt + Z.of_nat k, "").
Proof.
  induction k as [|k IH]; intros acc cnt.
  - cbn [zeros take_digits]. change (Z.of_nat 0) with 0.
    now rewrite Z.pow_0_r, Z.mul_1_r, Z.add_0_r.
  - change (zeros (S k)) with (String "0" (zeros k)).
    change (take_digits acc cnt (String "0" (zeros k)))
      with (take_digits (10 * acc + 0) (cnt + 1) (zeros k)).
    rewrite IH, Nat2Z.inj_succ, Z.pow_succ_r by apply Nat2Z.is_nonneg.
    f_equal. f_equal; [ring | lia].
Qed.

Lemma strtod_one_zeros k :
  strtod (String "1" (zeros k))
  = Some (float_of_decimal false (10 ^ Z.of_nat k) 0, "").
Proof.
  unfold strtod.
  change (split_sign (String "1" (zeros k))) with (false, String "1" (zeros k)).
  cbv iota.
  change (take_digits 0 0 (String "1" (zeros k)))
    with (take_digits 1 1 (zeros k)).
  rewrite take_digits_zeros, Z.mul_1_l. cbv iota. cbv beta iota.
  rewrite Z.add_0_r.
  destruct (Z.eqb_spec (1 + Z.of_nat k) 0) as [E | _]; [lia |].
  reflexivity.
Qed.

Lemma float_of_ratio_overflow neg n :
  2 ^ 1100 <= n -> float_of_ratio neg n 1 = Finf neg.
Proof.
  intros H.
  assert (Hl : 1100 <= Z.log2 n).
  { rewrite <- (Z.log2_pow2 1100) by lia. now apply Z.log2_le_mono. }
  assert (Hn : n <> 0).
  { pose proof (Z.pow_pos_nonneg 2 1100 ltac:(lia) ltac:(lia)). lia. }
  unfold float_of_ratio.
  destruct (Z.eqb_spec n 0) as [E | _]; [contradiction |].
  change (Z.log2 1) with 0. rewrite Z.sub_0_r. cbv zeta.
  match goal with
  | |- context [if ?c then Z.log2 n else Z.log2 n - 1] =>
      set (l := if c then Z.log2 n else Z.log2 n - 1);
      assert (Hl' : 1099 <= l) by (subst l; destruct c; lia)
  end.
  clearbody l.
  set (e := Z.max (l - 52) (-1074)).
  assert (He : 1047 <= e) by (subst e; lia).
  clearbody e.
  destruct (_ =? 2 ^ 53).
  - destruct (Z.ltb_spec 971 (e + 1)); [reflexivity | lia].
  - destruct (Z.ltb_spec 971 e); [reflexivity | lia].
Qed.

Lemma float_of_decimal_overflow neg k :
  (1100 <= k)%nat -> float_of_decimal neg (10 ^ Z.of_nat k) 0 = Finf neg.
Proof.
  intros Hk.
  assert (H : 2 ^ 1100 <= 10 ^ Z.of_nat k).
  { transitivity (2 ^ Z.of_nat k).
    - apply Z.pow_le_mono_r; lia.
    - apply Z.pow_le_mono_l; lia. }
  set (P := 2 ^ 1100) in *.
  assert (HP : 0 < P) by (apply Z.pow_pos_nonneg; lia).
  generalize dependent (10 ^ Z.of_nat k). intros d H.
  unfold float_of_decimal.
  destruct (Z.eqb_spec d 0) as [E | _]; [lia |].
  change (400 <? 0) with false. cbv iota.
  destruct (Z.ltb_spec (0 + Z.log2 d / 3 + 1) (-330)) as [E | _].
  { pose proof (Z.log2_nonneg d). pose proof (Z.div_pos (Z.log2 d) 3). lia. }
  change (0 <=? 0) with true. cbv iota.
  change (10 ^ 0) with 1. rewrite Z.mul_1_r.
  now apply float_of_ratio_overflow.
Qed.

Lemma parse_inf_or_nan_digit r : parse_inf_or_nan (String "1" r) = None.
Proof. reflexivity. Qed.

(** C8 does not hold as written: [int] refuses a string of more than 4300
    digits, so the digit 1 followed by 4300 zeros, the decimal writing of
    [10^4300], is coerced by the float parse, to infinity, not to the
    integer. *)
Lemma format_long_integer_is_float :
  all_chars is_digit (String "1" (zeros 4300)) = true
  /\ format (VStr (String "1" (zeros 4300))) = Ok (VFloat (Finf false)).
Proof.
  split; [vm_compute; reflexivity |].
  assert (Hs : replace_del "," (strip (String "1" (zeros 4300)))
               = String "1" (zeros 4300)) by (vm_compute; reflexivity).
  assert (Hi : py_int (String "1" (zeros 4300)) = None) by (vm_compute; reflexivity).
  assert (Hf : py_float (String "1" (zeros 4300)) = Some (Finf false)).
  { unfold py_float.
    assert (Hd : drop_underscores zero
                   (rstrip_by c_isspace (lstrip_by c_isspace (String "1" (zeros 4300))))
                 = Some (String "1" (zeros 4300))) by (vm_compute; reflexivity).
    rewrite Hd, parse_inf_or_nan_digit, strtod_one_zeros, float_of_decimal_overflow.
    - reflexivity.
    - apply Nat.leb_le. vm_compute. reflexivity. }
  rewrite format_str_steps. cbv zeta. rewrite Hs, Hi, Hf. reflexivity.
Qed.

(** * Strings with a slash are no numbers *)


Lemma date_char_facts c :
  date_char c = true ->
  isspace c = false /\ c_isspace c = false /\ (c =? "_")%char = false
  /\ (c =? ",")%char = false.
Proof. unfold date_char. by_bits c; intros _; repeat split; reflexivity. Qed.

Lemma lstrip_by_id sp c r : sp c = false -> lstrip_by sp (String c r) = String c r.
Proof. intros H. cbn [lstrip_by]. now rewrite H. Qed.

Lemma rstrip_by_id sp s :
  all_chars (fun c => negb (sp c)) s = true -> rstrip_by sp s = s.
Proof.
  induction s as [|c r IH]; [reflexivity |]. cbn [all_chars rstrip_by].
  intros H. apply andb_prop in H as [Hc Hr]. rewrite (IH Hr).
  apply negb_true_iff in Hc. rewrite Hc. now destruct r.
Qed.

Lemma all_chars_impl (p q : ascii -> bool) s :
  (forall c, p c = true -> q c = true) -> all_chars p s = true -> all_chars q s = true.
Proof.
  intros Hpq. induction s as [|c r IH]; [reflexivity |]. cbn [all_chars].
  intros H. apply andb_prop in H as [Hc Hr]. now rewrite (Hpq c Hc), (IH Hr).
Qed.

Lemma date_chars_strip s : all_chars date_char s = true -> strip s = s.
Proof.
  intros H. apply strip_nonspace. revert H. apply all_chars_impl.
  intros c Hc. unfold nonspace. now destruct (date_char_facts c Hc) as (-> & _).
Qed.

Lemma date_chars_replace s : all_chars date_char s = true -> replace_del "," s = s.
Proof.
  intros H. apply replace_del_id. revert H. apply all_chars_impl.
  intros c Hc. now destruct (date_char_facts c Hc) as (_ & _ & _ & ->).
Qed.

Lemma date_chars_c_strip s :
  all_chars date_char s = true ->
  rstrip_by c_isspace (lstrip_by c_isspace s) = s.
Proof.
  intros H.
  assert (all_chars (fun c => negb (c_isspace c)) s = true) as Hs.
  { revert H. apply all_chars_impl.
    intros c Hc. now destruct (date_char_facts c Hc) as (_ & -> & _). }
  replace (lstrip_by c_isspace s) with s; [now apply rstrip_by_id |].
  destruct s as [|c r]; [reflexivity |]. cbn [all_chars] in Hs.
  apply andb_prop in Hs as [Hc _]. apply negb_true_iff in Hc.
  now rewrite lstrip_by_id.
Qed.

Lemma date_chars_underscores s : forall prev,
  all_chars date_char s = true -> (prev =? "_")%char = false ->
  drop_underscores prev s = Some s.
Proof.
  induction s as [|c r IH]; intros prev H Hp.
  - cbn. now rewrite Hp.
  - cbn [all_chars] in H. apply andb_prop in H as [Hc Hr].
    destruct (date_char_facts c Hc) as (_ & _ & Hu & _).
    cbn [drop_underscores]. rewrite Hu, Hp. cbn [andb].
    now rewrite (IH c Hr Hu).
Qed.

(** A run of digits before a slash is read up to the slash. *)
Lemma int_digits_slash ds rest : forall acc prev,
  all_chars is_digit ds = true -> (prev =? "_")%char = false ->
  exists acc', int_digits acc prev (ds ++ String "/" rest) = Some (acc', String "/" rest).
Proof.
  induction ds as [|c r IH]; intros acc prev H Hp.
  - exists acc. cbn. now rewrite Hp.
  - cbn [all_chars] in H. apply andb_prop in H as [Hc Hr].
    unfold is_digit in Hc. destruct (digit_val c) as [d|] eqn:Hd; [|discriminate].
    cbn [append]. rewrite (int_digits_step _ _ _ d) by assumption.
    apply IH; [assumption |].
    apply digit_not_mark. unfold is_digit. now rewrite Hd.
Qed.

Lemma take_digits_slash ds rest : forall acc cnt,
  all_chars is_digit ds = true ->
  exists acc' cnt', take_digits acc cnt (ds ++ String "/" rest) = (acc', cnt', String "/" rest).
Proof.
  induction ds as [|c r IH]; intros acc cnt H.
  - exists acc, cnt. reflexivity.
  - cbn [all_chars] in H. apply andb_prop in H as [Hc Hr].
    unfold is_digit in Hc. destruct (digit_val c) as [d|] eqn:Hd; [|discriminate].
    cbn [append take_digits]. rewrite Hd. now apply IH.
Qed.

Lemma py_int_slash c ds rest :
  is_digit c = true -> all_chars is_digit ds = true ->
  py_int (String c ds ++ String "/" rest) = None.
Proof.
  intros Hc Hds. unfold py_int. cbn [append].
  rewrite lstrip_by_id by apply (digit_not_space c Hc).
  rewrite split_sign_digit, Hc by assumption.
  destruct (int_digits_slash (String c ds) rest 0 zero) as (acc' & Hrd);
    [cbn [all_chars]; now rewrite Hc | reflexivity |].
  cbn [append] in Hrd. rewrite Hrd. now destruct (_ <? _).
Qed.

Lemma ci_match_digit t c r a :
  is_digit c = true -> is_digit a = false -> ci_match (String a t) (String c r) = None.
Proof.
  intros Hc Ha. cbn [ci_match].
  destruct (tolower c =? a)%char eqn:E; [|reflexivity].
  apply Ascii.eqb_eq in E. subst a. revert Hc Ha. by_bits c.
Qed.

Lemma py_float_slash c ds rest :
  is_digit c = true -> all_chars is_digit ds = true ->
  all_chars date_char rest = true ->
  py_float (String c ds ++ String "/" rest) = None.
Proof.
  intros Hc Hds Hrest.
  assert (all_chars date_char (String c ds ++ String "/" rest) = true) as Hall.
  { rewrite all_chars_app. cbn [all_chars]. rewrite Hrest.
    unfold date_char at 1. rewrite Hc. cbn.
    rewrite (all_chars_impl is_digit date_char ds); [reflexivity | | assumption].
    intros x Hx. unfold date_char. now rewrite Hx. }
  unfold py_float. rewrite date_chars_c_strip by assumption.
  rewrite date_chars_underscores by (assumption || reflexivity).
  cbn [append]. unfold parse_inf_or_nan. rewrite split_sign_digit by assumption.
  rewrite !ci_match_digit by (assumption || reflexivity).
  unfold strtod. rewrite split_sign_digit by assumption.
  destruct (take_digits_slash (String c ds) rest 0 0) as (acc' & cnt' & Htk);
    [cbn [all_chars]; now rewrite Hc |].
  cbn [append] in Htk. rewrite Htk.
  destruct (cnt' + 0 =? 0); reflexivity.
Qed.

(** * Dates written with two-digit and four-digit fields *)


Ltac cases_upto H :=
  repeat (destruct H as [-> | H]); [.. | subst].

Lemma month_cases m :
  1 <= m <= 12 ->
  m = 1 \/ m = 2 \/ m = 3 \/ m = 4 \/ m = 5 \/ m = 6 \/ m = 7 \/ m = 8 \/ m = 9
  \/ m = 10 \/ m = 11 \/ m = 12.
Proof. lia. Qed.

Lemma day_cases d :
  1 <= d <= 31 ->
  d = 1 \/ d = 2 \/ d = 3 \/ d = 4 \/ d = 5 \/ d = 6 \/ d = 7 \/ d = 8 \/ d = 9
  \/ d = 10 \/ d = 11 \/ d = 12 \/ d = 13 \/ d = 14 \/ d = 15 \/ d = 16
  \/ d = 17 \/ d = 18 \/ d = 19 \/ d = 20 \/ d = 21 \/ d = 22 \/ d = 23
  \/ d = 24 \/ d = 25 \/ d = 26 \/ d = 27 \/ d = 28 \/ d = 29 \/ d = 30
  \/ d = 31.
Proof. lia. Qed.

(** [%m] then a slash: the two digits of a month are the month, whatever
    follows decides the match. *)
Lemma match_month m ds rest :
  1 <= m <= 12 ->
  match_re (dir_m :: lit "/" :: ds) (two_digits m ++ String "/" rest)
  = match match_re ds rest with
    | Some (groups, r) => Some ((dir_m, two_digits m) :: (lit "/", "/") :: groups, r)
    | None => None
    end.
Proof.
  intros H. apply month_cases in H.
  cases_upto H; cbn; destruct (match_re ds rest) as [[groups r]|]; reflexivity.
Qed.

Lemma match_day d ds rest :
  1 <= d <= 31 ->
  match_re (dir_d :: lit "/" :: ds) (two_digits d ++ String "/" rest)
  = match match_re ds rest with
    | Some (groups, r) => Some ((dir_d, two_digits d) :: (lit "/", "/") :: groups, r)
    | None => None
    end.
Proof.
  intros H. apply day_cases in H.
  cases_upto H; cbn; destruct (match_re ds rest) as [[groups r]|]; reflexivity.
Qed.

Lemma match_day_last d :
  1 <= d <= 31 -> match_re [dir_d] (two_digits d) = Some ([(dir_d, two_digits d)], "").
Proof. intros H. apply day_cases in H. cases_upto H; reflexivity. Qed.

Lemma match_year2 c1 c2 ds rest :
  is_digit c1 = true -> is_digit c2 = true ->
  match_re (dir_y :: ds) (String c1 (String c2 rest))
  = match match_re ds rest with
    | Some (groups, r) => Some ((dir_y, String c1 (String c2 "")) :: groups, r)
    | None => None
    end.
Proof.
  intros H1 H2. cbn [match_re alternatives first_some match_atoms atom_ok].
  rewrite H1, H2. destruct (match_re ds rest) as [[groups r]|]; reflexivity.
Qed.

Lemma match_year4 c1 c2 c3 c4 ds rest :
  is_digit c1 = true -> is_digit c2 = true -> is_digit c3 = true ->
  is_digit c4 = true ->
  match_re (dir_Y :: ds) (String c1 (String c2 (String c3 (String c4 rest))))
  = match match_re ds rest with
    | Some (groups, r) =>
        Some ((dir_Y, String c1 (String c2 (String c3 (String c4 "")))) :: groups, r)
    | None => None
    end.
Proof.
  intros H1 H2 H3 H4. cbn [match_re alternatives first_some match_atoms atom_ok].
  rewrite H1, H2, H3, H4. destruct (match_re ds rest) as [[groups r]|]; reflexivity.
Qed.

(** [%Y] does not match where the slash comes before the fourth character. *)
Lemma match_year4_short c1 c2 ds rest :
  match_re (dir_Y :: ds) (String c1 (String c2 (String "/" rest))) = None.
Proof.
  cbn [match_re alternatives first_some match_atoms atom_ok].
  destruct (is_digit c1), (is_digit c2); reflexivity.
Qed.

(** [%m] then a slash does not match three digits in a row. *)
Lemma match_month_digits c1 c2 c3 ds rest :
  is_digit c2 = true -> is_digit c3 = true ->
  match_re (dir_m :: lit "/" :: ds) (String c1 (String c2 (String c3 rest))) = None.
Proof.
  intros H2 H3.
  destruct (digit_not_mark c2 H2) as (_ & _ & E2).
  destruct (digit_not_mark c3 H3) as (_ & _ & E3).
  cbn [match_re alternatives first_some match_atoms].
  destruct (atom_ok (Ch "1") c1), (atom_ok (Range "0" "2") c2),
    (atom_ok (Ch "0") c1), (atom_ok (Range "1" "9") c2),
    (atom_ok (Range "1" "9") c1);
    cbn -[match_re Ascii.eqb]; rewrite ?E2, ?E3; reflexivity.
Qed.

Lemma digits_bound2 n : 0 <= n <= 99 -> 0 <= n / 10 < 10 /\ 0 <= n mod 10 < 10.
Proof.
  intros H. split; [| apply Z.mod_pos_bound; lia].
  split; [apply Z.div_pos; lia | apply Z.div_lt_upper_bound; lia].
Qed.

Lemma digits_bound4 n :
  0 <= n <= 9999 ->
  0 <= n / 1000 < 10 /\ 0 <= n / 100 mod 10 < 10 /\ 0 <= n / 10 mod 10 < 10
  /\ 0 <= n mod 10 < 10.
Proof.
  intros H. repeat split; try (apply Z.mod_pos_bound; lia).
  - apply Z.div_pos; lia.
  - apply Z.div_lt_upper_bound; lia.
Qed.

Lemma count_digits_length s : count_digits s <= Z.of_nat (String.length s).
Proof.
  induction s as [|c r IH]; cbn [count_digits String.length]; [lia |].
  pose proof (count_digits_nonneg r).
  destruct (is_digit c); [lia |]. destruct (c =? "_")%char; lia.
Qed.

Lemma py_int_digits c r acc :
  is_digit c = true ->
  Z.of_nat (String.length (String c r)) <= int_max_str_digits ->
  int_digits 0 zero (String c r) = Some (acc, "") ->
  py_int (String c r) = Some acc.
Proof.
  intros Hc Hlen Hrd. unfold py_int.
  rewrite lstrip_by_id by apply (digit_not_space c Hc).
  rewrite split_sign_digit, Hc, Hrd by assumption.
  pose proof (count_digits_length (String c r)).
  now replace (int_max_str_digits <? _) with false by (symmetry; apply Z.ltb_ge; lia).
Qed.

Lemma int_digits_end acc c :
  is_digit c = true -> int_digits acc c "" = Some (acc, "").
Proof. intros H. cbn. now destruct (digit_not_mark c H) as (-> & _). Qed.

Lemma py_int_two_digits n : 0 <= n <= 99 -> py_int (two_digits n) = Some n.
Proof.
  intros H. destruct (digits_bound2 n H) as (Ha & Hb).
  unfold two_digits.
  apply py_int_digits; [now apply is_digit_char | unfold int_max_str_digits; cbn; lia |].
  rewrite (int_digits_step _ _ _ (n / 10)) by now apply digit_val_char.
  rewrite (int_digits_step _ _ _ (n mod 10)) by now apply digit_val_char.
  rewrite int_digits_end by now apply is_digit_char.
  do 2 f_equal. pose proof (Z.div_mod n 10). lia.
Qed.

Lemma py_int_four_digits n : 0 <= n <= 9999 -> py_int (four_digits n) = Some n.
Proof.
  intros H. destruct (digits_bound4 n H) as (Ha & Hb & Hc & Hd).
  unfold four_digits.
  apply py_int_digits; [now apply is_digit_char | unfold int_max_str_digits; cbn; lia |].
  rewrite (int_digits_step _ _ _ (n / 1000)) by now apply digit_val_char.
  rewrite (int_digits_step _ _ _ (n / 100 mod 10)) by now apply digit_val_char.
  rewrite (int_digits_step _ _ _ (n / 10 mod 10)) by now apply digit_val_char.
  rewrite (int_digits_step _ _ _ (n mod 10)) by now apply digit_val_char.
  rewrite int_digits_end by now apply is_digit_char.
  do 2 f_equal.
  pose proof (Z.div_mod n 10). pose proof (Z.div_mod (n / 10) 10).
  pose proof (Z.div_mod (n / 100) 10).
  rewrite (Z.div_div n 10 10) in * by lia. rewrite (Z.div_div n 100 10) in * by lia.
  change (10 * 10) with 100 in *. change (100 * 10) with 1000 in *. lia.
Qed.

Lemma all_digits_two n : 0 <= n <= 99 -> all_chars is_digit (two_digits n) = true.
Proof.
  intros H. destruct (digits_bound2 n H) as (Ha & Hb).
  unfold two_digits. cbn [all_chars]. now rewrite !is_digit_char.
Qed.

Lemma all_digits_four n : 0 <= n <= 9999 -> all_chars is_digit (four_digits n) = true.
Proof.
  intros H. destruct (digits_bound4 n H) as (Ha & Hb & Hc & Hd).
  unfold four_digits. cbn [all_chars]. now rewrite !is_digit_char.
Qed.

Lemma date_chars_digits s : all_chars is_digit s = true -> all_chars date_char s = true.
Proof. apply all_chars_impl. intros c Hc. unfold date_char. now rewrite Hc. Qed.

Lemma new_date_valid y m d :
  1 <= y <= 9999 -> 1 <= m <= 12 -> 1 <= d <= days_in_month y m ->
  new_date y m d = Some (mkdate y m d).
Proof.
  intros Hy Hm Hd. unfold new_date.
  replace (1 <=? y) with true by (symmetry; apply Z.leb_le; lia).
  replace (y <=? 9999) with true by (symmetry; apply Z.leb_le; lia).
  replace (1 <=? m) with true by (symmetry; apply Z.leb_le; lia).
  replace (m <=? 12) with true by (symmetry; apply Z.leb_le; lia).
  replace (1 <=? d) with true by (symmetry; apply Z.leb_le; lia).
  replace (d <=? days_in_month y m) with true by (symmetry; apply Z.leb_le; lia).
  reflexivity.
Qed.

Lemma days_in_month_le y m : days_in_month y m <= 31.
Proof.
  unfold days_in_month.
  destruct (m =? 2); [destruct (is_leap y); lia |].
  destruct (_ || _); lia.
Qed.

(** * [strptime] on the three patterns *)


Lemma directives_mdy : directives "%m/%d/%y" = Some [dir_m; lit "/"; dir_d; lit "/"; dir_y].
Proof. reflexivity. Qed.

Lemma directives_mdY : directives "%m/%d/%Y" = Some [dir_m; lit "/"; dir_d; lit "/"; dir_Y].
Proof. reflexivity. Qed.

Lemma directives_Ymd : directives "%Y/%m/%d" = Some [dir_Y; lit "/"; dir_m; lit "/"; dir_d].
Proof. reflexivity. Qed.

Lemma match_slash ds rest :
  match_re (lit "/" :: ds) (String "/" rest)
  = match match_re ds rest with
    | Some (groups, r) => Some ((lit "/", "/") :: groups, r)
    | None => None
    end.
Proof. cbn. destruct (match_re ds rest) as [[groups r]|]; reflexivity. Qed.

Lemma match_year2_last yy :
  0 <= yy <= 99 -> match_re [dir_y] (two_digits yy) = Some ([(dir_y, two_digits yy)], "").
Proof.
  intros H. destruct (digits_bound2 yy H) as (Ha & Hb).
  unfold two_digits. now rewrite match_year2 by now apply is_digit_char.
Qed.

Lemma match_year2_more y :
  0 <= y <= 9999 ->
  exists txt c r, match_re [dir_y] (four_digits y) = Some ([(dir_y, txt)], String c r).
Proof.
  intros H. destruct (digits_bound4 y H) as (Ha & Hb & Hc & Hd).
  unfold four_digits. rewrite match_year2 by now apply is_digit_char.
  cbn [match_re]. eauto.
Qed.

Lemma match_year4_last y :
  0 <= y <= 9999 -> match_re [dir_Y] (four_digits y) = Some ([(dir_Y, four_digits y)], "").
Proof.
  intros H. destruct (digits_bound4 y H) as (Ha & Hb & Hc & Hd).
  unfold four_digits. now rewrite match_year4 by now apply is_digit_char.
Qed.

Lemma match_year4_slash y ds rest :
  0 <= y <= 9999 ->
  match_re (dir_Y :: lit "/" :: ds) (four_digits y ++ String "/" rest)
  = match match_re ds rest with
    | Some (groups, r) => Some ((dir_Y, four_digits y) :: (lit "/", "/") :: groups, r)
    | None => None
    end.
Proof.
  intros H. destruct (digits_bound4 y H) as (Ha & Hb & Hc & Hd).
  unfold four_digits. cbn [append]. rewrite match_year4 by now apply is_digit_char.
  rewrite match_slash. destruct (match_re ds rest) as [[groups r]|]; reflexivity.
Qed.

Lemma match_month_year4 y ds rest :
  0 <= y <= 9999 ->
  match_re (dir_m :: lit "/" :: ds) (four_digits y ++ rest) = None.
Proof.
  intros H. destruct (digits_bound4 y H) as (Ha & Hb & Hc & Hd).
  unfold four_digits. cbn [append]. now rewrite match_month_digits by now apply is_digit_char.
Qed.

Lemma strptime_mdy m d yy :
  1 <= m <= 12 -> 1 <= d <= 31 -> 0 <= yy <= 99 ->
  strptime (mdy m d yy) "%m/%d/%y"
  = new_date (if yy <=? 68 then yy + 2000 else yy + 1900) m d.
Proof.
  intros Hm Hd Hy.
  unfold strptime, mdy. rewrite directives_mdy, match_month, match_day by assumption.
  rewrite match_year2_last by assumption. cbn [read_groups].
  rewrite !py_int_two_digits by lia. reflexivity.
Qed.

Lemma strptime_mdY m d y :
  1 <= m <= 12 -> 1 <= d <= 31 -> 0 <= y <= 9999 ->
  strptime (mdY m d y) "%m/%d/%y" = None
  /\ strptime (mdY m d y) "%m/%d/%Y" = new_date y m d.
Proof.
  intros Hm Hd Hy.
  unfold strptime, mdY. rewrite directives_mdy, directives_mdY.
  rewrite !match_month, !match_day by assumption. split.
  - destruct (match_year2_more y Hy) as (txt & c & r & ->). reflexivity.
  - rewrite match_year4_last by assumption. cbn [read_groups].
    rewrite !py_int_two_digits, py_int_four_digits by lia. reflexivity.
Qed.

Lemma strptime_Ymd y m d :
  1 <= m <= 12 -> 1 <= d <= 31 -> 0 <= y <= 9999 ->
  strptime (Ymd y m d) "%m/%d/%y" = None
  /\ strptime (Ymd y m d) "%m/%d/%Y" = None
  /\ strptime (Ymd y m d) "%Y/%m/%d" = new_date y m d.
Proof.
  intros Hm Hd Hy.
  unfold strptime, Ymd. rewrite directives_mdy, directives_mdY, directives_Ymd.
  rewrite !match_month_year4 by assumption. repeat split.
  rewrite match_year4_slash, match_month, match_day_last by assumption.
  cbn [read_groups].
  rewrite !py_int_two_digits, py_int_four_digits by lia. reflexivity.
Qed.

(** * The value coercer on dates *)

Lemma rstrip_by_idem sp s : rstrip_by sp (rstrip_by sp s) = rstrip_by sp s.
Proof.
  induction s as [|c r IH]; [reflexivity |]. cbn [rstrip_by].
  destruct (rstrip_by sp r) as [|c' r'] eqn:E.
  - destruct (sp c) eqn:Ec; [reflexivity |]. cbn [rstrip_by]. now rewrite Ec.
  - change (rstrip_by sp (String c (String c' r')))
      with (match rstrip_by sp (String c' r') with
            | "" => if sp c then "" else String c ""
            | String a b => String c (String a b)
            end).
    now rewrite IH.
Qed.

Lemma lstrip_by_head sp s :
  lstrip_by sp s = "" \/ exists c r, lstrip_by sp s = String c r /\ sp c = false.
Proof.
  induction s as [|c r IH]; [now left |]. cbn [lstrip_by].
  destruct (sp c) eqn:E; [assumption |]. right. eauto.
Qed.

Lemma strip_idem s : strip (strip s) = strip s.
Proof.
  unfold strip. destruct (lstrip_by_head isspace s) as [-> | (c & r & -> & Hc)];
    [reflexivity |].
  assert (exists r', rstrip_by isspace (String c r) = String c r') as (r' & Hr).
  { cbn [rstrip_by]. rewrite Hc. destruct (rstrip_by isspace r); eauto. }
  rewrite Hr, lstrip_by_id by assumption.
  rewrite <- Hr. apply rstrip_by_idem.
Qed.

(** The coercer sees a string through [strip] only. *)
Lemma format_strip s : format (VStr (strip s)) = format (VStr s).
Proof. rewrite !format_str_steps. cbv zeta. now rewrite strip_idem. Qed.

Lemma digit_not_N c r : is_digit c = true -> (String c r =? "N/A")%string = false.
Proof. by_bits c. Qed.

(** A string of digits and slashes that starts with digits and a slash skips
    the two number parses; it is a date or stays as it is. *)
Lemma format_date_chars c ds rest :
  is_digit c = true -> all_chars is_digit ds = true ->
  all_chars date_char rest = true ->
  let s := String c ds ++ String "/" rest in
  format (VStr s) =
  match strptime s "%m/%d/%y" with
  | Some d => Ok (VDate d)
  | None =>
  match strptime s "%m/%d/%Y" with
  | Some d => Ok (VDate d)
  | None =>
  match strptime s "%Y/%m/%d" with
  | Some d => Ok (VDate d)
  | None => Ok (VStr s)
  end end end.
Proof.
  intros Hc Hds Hrest s.
  assert (all_chars date_char s = true) as Hall.
  { unfold s. rewrite all_chars_app. cbn [all_chars]. rewrite Hrest.
    unfold date_char at 1. rewrite Hc. cbn.
    now rewrite (date_chars_digits ds Hds). }
  rewrite format_str_steps. cbv zeta.
  rewrite date_chars_strip, date_chars_replace by assumption.
  unfold s at 1 2. rewrite py_int_slash, py_float_slash by assumption.
  replace ((s =? "") || (s =? "N/A"))%string with false; [reflexivity |].
  unfold s. cbn [append]. now rewrite digit_not_N.
Qed.

Lemma format_mdy_steps m d yy :
  0 <= m <= 99 -> 0 <= d <= 99 -> 0 <= yy <= 99 ->
  format (VStr (mdy m d yy)) =
  match strptime (mdy m d yy) "%m/%d/%y" with
  | Some d => Ok (VDate d)
  | None =>
  match strptime (mdy m d yy) "%m/%d/%Y" with
  | Some d => Ok (VDate d)
  | None =>
  match strptime (mdy m d yy) "%Y/%m/%d" with
  | Some d => Ok (VDate d)
  | None => Ok (VStr (mdy m d yy))
  end end end.
Proof.
  intros Hm Hd Hy.
  destruct (digits_bound2 m Hm) as (Ha & Hb).
  apply (format_date_chars (digit_char (m / 10)) (String (digit_char (m mod 10)) "")
           (two_digits d ++ String "/" (two_digits yy))).
  - now apply is_digit_char.
  - cbn [all_chars]. now rewrite is_digit_char.
  - rewrite all_chars_app. cbn [all_chars].
    now rewrite !date_chars_digits by now apply all_digits_two.
Qed.

Lemma format_mdY_steps m d y :
  0 <= m <= 99 -> 0 <= d <= 99 -> 0 <= y <= 9999 ->
  format (VStr (mdY m d y)) =
  match strptime (mdY m d y) "%m/%d/%y" with
  | Some d => Ok (VDate d)
  | None =>
  match strptime (mdY m d y) "%m/%d/%Y" with
  | Some d => Ok (VDate d)
  | None =>
  match strptime (mdY m d y) "%Y/%m/%d" with
  | Some d => Ok (VDate d)
  | None => Ok (VStr (mdY m d y))
  end end end.
Proof.
  intros Hm Hd Hy.
  destruct (digits_bound2 m Hm) as (Ha & Hb).
  apply (format_date_chars (digit_char (m / 10)) (String (digit_char (m mod 10)) "")
           (two_digits d ++ String "/" (four_digits y))).
  - now apply is_digit_char.
  - cbn [all_chars]. now rewrite is_digit_char.
  - rewrite all_chars_app. cbn [all_chars].
    rewrite date_chars_digits by now apply all_digits_two.
    now rewrite date_chars_digits by now apply all_digits_four.
Qed.

Lemma format_Ymd_steps y m d :
  0 <= m <= 99 -> 0 <= d <= 99 -> 0 <= y <= 9999 ->
  format (VStr (Ymd y m d)) =
  match strptime (Ymd y m d) "%m/%d/%y" with
  | Some d => Ok (VDate d)
  | None =>
  match strptime (Ymd y m d) "%m/%d/%Y" with
  | Some d => Ok (VDate d)
  | None =>
  match strptime (Ymd y m d) "%Y/%m/%d" with
  | Some d => Ok (VDate d)
  | None => Ok (VStr (Ymd y m d))
  end end end.
Proof.
  intros Hm Hd Hy.
  destruct (digits_bound4 y Hy) as (Ha & Hb & Hc & He).
  apply (format_date_chars (digit_char (y / 1000))
           (String (digit_char (y / 100 mod 10))
              (String (digit_char (y / 10 mod 10)) (String (digit_char (y mod 10)) "")))
           (two_digits m ++ String "/" (two_digits d))).
  - now apply is_digit_char.
  - cbn [all_chars]. now rewrite !is_digit_char.
  - rewrite all_chars_app. cbn [all_chars].
    now rewrite !date_chars_digits by now apply all_digits_two.
Qed.

Lemma match_year4_two n ds rest :
  match_re (dir_Y :: ds) (two_digits n ++ String "/" rest) = None.
Proof. unfold two_digits. cbn [append]. apply match_year4_short. Qed.

Lemma match_year4_end n : match_re [dir_Y] (two_digits n) = None.
Proof.
  unfold two_digits. cbn [match_re alternatives first_some match_atoms atom_ok].
  destruct (is_digit (digit_char (n / 10))), (is_digit (digit_char (n mod 10)));
    reflexivity.
Qed.

Lemma strptime_mdy_only m d yy :
  1 <= m <= 12 -> 1 <= d <= 31 ->
  strptime (mdy m d yy) "%m/%d/%Y" = None /\ strptime (mdy m d yy) "%Y/%m/%d" = None.
Proof.
  intros Hm Hd. unfold strptime, mdy. rewrite directives_mdY, directives_Ymd.
  rewrite match_year4_two, match_month, match_day, match_year4_end by assumption.
  split; reflexivity.
Qed.

Lemma strptime_mdY_only m d y : strptime (mdY m d y) "%Y/%m/%d" = None.
Proof. unfold strptime, mdY. now rewrite directives_Ymd, match_year4_two. Qed.

Lemma format_mdy m d yy :
  1 <= m <= 12 -> 1 <= d <= 31 -> 0 <= yy <= 99 ->
  format (VStr (mdy m d yy)) =
  match new_date (if yy <=? 68 then yy + 2000 else yy + 1900) m d with
  | Some dt => Ok (VDate dt)
  | None => Ok (VStr (mdy m d yy))
  end.
Proof.
  intros Hm Hd Hy. rewrite format_mdy_steps, strptime_mdy by lia.
  destruct (strptime_mdy_only m d yy Hm Hd) as (-> & ->). reflexivity.
Qed.

Lemma format_mdY m d y :
  1 <= m <= 12 -> 1 <= d <= 31 -> 0 <= y <= 9999 ->
  format (VStr (mdY m d y)) =
  match new_date y m d with
  | Some dt => Ok (VDate dt)
  | None => Ok (VStr (mdY m d y))
  end.
Proof.
  intros Hm Hd Hy. rewrite format_mdY_steps by lia.
  destruct (strptime_mdY m d y Hm Hd Hy) as (-> & ->).
  now rewrite strptime_mdY_only.
Qed.

Lemma format_Ymd y m d :
  1 <= m <= 12 -> 1 <= d <= 31 -> 0 <= y <= 9999 ->
  format (VStr (Ymd y m d)) =
  match new_date y m d with
  | Some dt => Ok (VDate dt)
  | None => Ok (VStr (Ymd y m d))
  end.
Proof.
  intros Hm Hd Hy. rewrite format_Ymd_steps by lia.
  destruct (strptime_Ymd y m d Hm Hd Hy) as (-> & -> & ->).
  reflexivity.
Qed.

(** * The date claims *)

(** C10. A date written in the two-digit-year pattern gets its century from a
    fixed pivot: the years 00 to 68 are 2000 to 2068 and the years 69 to 99 are
    1969 to 1999, for every day of the calendar written with two-digit fields;
    so "12/31/99" is the last day of 1999 and "01/01/50" the first of 2050. *)
Theorem two_digit_year_pivot :
  (forall m d yy,
      1 <= m <= 12 -> 0 <= yy <= 68 -> 1 <= d <= days_in_month (2000 + yy) m ->
      format (VStr (mdy m d yy)) = Ok (VDate (mkdate (2000 + yy) m d)))
  /\ (forall m d yy,
      1 <= m <= 12 -> 69 <= yy <= 99 -> 1 <= d <= days_in_month (1900 + yy) m ->
      format (VStr (mdy m d yy)) = Ok (VDate (mkdate (1900 + yy) m d)))
  /\ format (VStr "12/31/99") = Ok (VDate (mkdate 1999 12 31))
  /\ format (VStr "01/01/50") = Ok (VDate (mkdate 2050 1 1)).
Proof.
  split; [| split; [| split; vm_compute; reflexivity]].
  - intros m d yy Hm Hy Hd.
    pose proof (days_in_month_le (2000 + yy) m) as Hle.
    rewrite format_mdy by lia.
    replace (yy <=? 68) with true by (symmetry; apply Z.leb_le; lia).
    replace (yy + 2000) with (2000 + yy) by lia.
    now rewrite new_date_valid by lia.
  - intros m d yy Hm Hy Hd.
    pose proof (days_in_month_le (1900 + yy) m) as Hle.
    rewrite format_mdy by lia.
    replace (yy <=? 68) with false by (symmetry; apply Z.leb_gt; lia).
    replace (yy + 1900) with (1900 + yy) by lia.
    now rewrite new_date_valid by lia.
Qed.

Lemma two_digit_year_pivot_witness :
  format (VStr (mdy 2 29 68)) = Ok (VDate (mkdate 2068 2 29))
  /\ format (VStr (mdy 7 20 69)) = Ok (VDate (mkdate 1969 7 20)).
Proof.
  split.
  - apply (proj1 two_digit_year_pivot 2 29 68); vm_compute; split; discriminate.
  - apply (proj1 (proj2 two_digit_year_pivot) 7 20 69); vm_compute; split; discriminate.
Defined.

(** C9, as the code has it. A string whose trimmed form is a day of the
    calendar in one of the three patterns (two-digit month and day) becomes
    that date, which has a year, a month and a day and nothing else; a string
    in one of the patterns that names no day of the calendar, and every other
    string that is no number, no date and no null marker, comes back trimmed
    of its surrounding white space, not as it was given. *)
Theorem format_date_patterns :
  (forall s y m d,
      1 <= y <= 9999 -> 1 <= m <= 12 -> 1 <= d <= days_in_month y m ->
      strip s = mdY m d y \/ strip s = Ymd y m d ->
      format (VStr s) = Ok (VDate (mkdate y m d)))
  /\ (forall s yy m d,
      0 <= yy <= 99 -> 1 <= m <= 12 ->
      1 <= d <= days_in_month (if yy <=? 68 then yy + 2000 else yy + 1900) m ->
      strip s = mdy m d yy ->
      format (VStr s)
      = Ok (VDate (mkdate (if yy <=? 68 then yy + 2000 else yy + 1900) m d)))
  /\ (forall s y m d,
      0 <= y <= 9999 -> 1 <= m <= 12 -> 1 <= d <= 31 -> new_date y m d = None ->
      strip s = mdY m d y \/ strip s = Ymd y m d ->
      format (VStr s) = Ok (VStr (strip s)))
  /\ (forall s,
      py_int (replace_del "," (strip s)) = None ->
      py_float (replace_del "," (strip s)) = None ->
      strptime (strip s) "%m/%d/%y" = None ->
      strptime (strip s) "%m/%d/%Y" = None ->
      strptime (strip s) "%Y/%m/%d" = None ->
      (strip s =? "")%string = false -> (strip s =? "N/A")%string = false ->
      format (VStr s) = Ok (VStr (strip s))).
Proof.
  split; [| split; [| split]].
  - intros s y m d Hy Hm Hd Hs.
    pose proof (days_in_month_le y m) as Hle.
    rewrite <- format_strip.
    destruct Hs as [-> | ->]; [rewrite format_mdY by lia | rewrite format_Ymd by lia];
      now rewrite new_date_valid.
  - intros s yy m d Hy Hm Hd Hs.
    pose proof (days_in_month_le (if yy <=? 68 then yy + 2000 else yy + 1900) m) as Hle.
    rewrite <- format_strip, Hs, format_mdy by lia.
    rewrite new_date_valid; [reflexivity | | assumption | assumption].
    destruct (yy <=? 68); lia.
  - intros s y m d Hy Hm Hd Hnone Hs.
    rewrite <- format_strip.
    destruct Hs as [-> | ->]; [rewrite format_mdY by lia | rewrite format_Ymd by lia];
      now rewrite Hnone.
  - intros s Hi Hf H1 H2 H3 He Hn.
    rewrite format_str_steps. cbv zeta.
    now rewrite Hi, Hf, H1, H2, H3, He, Hn.
Qed.

Lemma format_date_patterns_witness :
  format (VStr " 02/29/2020") = Ok (VDate (mkdate 2020 2 29))
  /\ format (VStr "12/31/99 ") = Ok (VDate (mkdate 1999 12 31))
  /\ format (VStr " 2019/02/30") = Ok (VStr "2019/02/30")
  /\ format (VStr " low earth orbit ") = Ok (VStr "low earth orbit").
Proof.
  split; [| split; [| split]].
  - apply (proj1 format_date_patterns " 02/29/2020" 2020 2 29);
      [lia | lia | vm_compute; split; discriminate | left; vm_compute; reflexivity].
  - apply (proj1 (proj2 format_date_patterns) "12/31/99 " 99 12 31);
      [lia | lia | vm_compute; split; discriminate | vm_compute; reflexivity].
  - apply (proj1 (proj2 (proj2 format_date_patterns)) " 2019/02/30" 2019 2 30);
      [lia | lia | lia | vm_compute; reflexivity | right; vm_compute; reflexivity].
  - apply (proj2 (proj2 (proj2 format_date_patterns)) " low earth orbit ");
      vm_compute; reflexivity.
Defined.

(** C9 does not hold as written: a malformed date with a leading blank comes
    back without the blank. *)
Lemma format_malformed_date_trimmed :
  format (VStr " 13/45/99") = Ok (VStr "13/45/99")
  /\ (" 13/45/99" =? "13/45/99")%string = false.
Proof. split; vm_compute; reflexivity. Qed.

(** * The fixed-width parser *)

Lemma get_past_end s : forall n, (String.length s <= n)%nat -> get n s = None.
Proof.
  induction s as [|c r IH]; intros n H; [reflexivity |].
  destruct n as [|n]; cbn in H |- *; [lia |]. apply IH. lia.
Qed.

Lemma get_within s : forall n, (n < String.length s)%nat -> exists c, get n s = Some c.
Proof.
  induction s as [|c r IH]; intros n H; cbn in H; [lia |].
  destruct n as [|n]; cbn; [eauto |]. apply IH. lia.
Qed.

Lemma index_past_end i line :
  (String.length line <= i)%nat -> index i line = Raise IndexError.
Proof. intros H. unfold index. now rewrite get_past_end. Qed.

Lemma index_within i line :
  (i < String.length line)%nat -> exists c, index i line = Ok (String c "").
Proof. intros H. unfold index. destruct (get_within line i H) as (c & ->). eauto. Qed.

Lemma index_inv i line flag :
  index i line = Ok flag -> exists c, flag = String c "".
Proof.
  unfold index. destruct (get i line) as [c|]; [| discriminate].
  intros [= <-]. eauto.
Qed.

Lemma substring_past_end s : forall a n, (String.length s <= a)%nat -> substring a n s = "".
Proof.
  induction s as [|c r IH]; intros a n H; [now destruct a, n |].
  destruct a as [|a]; cbn in H |- *; [lia |]. apply IH. lia.
Qed.

(** A line shorter than 22 characters stops the parser at one of its three
    reads by index. *)
Lemma parse_short_line line :
  (String.length line < 22)%nat -> parse_celestrak_row line = Raise IndexError.
Proof.
  intros H. unfold parse_celestrak_row. cbv zeta.
  destruct (Nat.le_gt_cases (String.length line) 19) as [H19 | H19].
  { now rewrite index_past_end. }
  destruct (index_within 19 line H19) as (c19 & ->). cbn [bind].
  destruct (Nat.le_gt_cases (String.length line) 20) as [H20 | H20].
  { now rewrite index_past_end. }
  destruct (index_within 20 line H20) as (c20 & ->). cbn [bind].
  rewrite index_past_end by lia. reflexivity.
Qed.

Lemma parse_long_line line :
  (22 <= String.length line)%nat ->
  exists c,
    parse_celestrak_row line =
    Ok [VStr (slice 0 11 line); VStr (slice 13 18 line); VInt 1; VInt 1;
        VStr (String c ""); VStr (slice 23 47 line); VStr (slice 49 54 line);
        VStr (slice 56 66 line); VStr (slice 69 73 line); VStr (slice 75 85 line);
        VStr (slice 87 94 line); VStr (slice 96 101 line); VStr (slice 103 109 line);
        VStr (slice 111 117 line); VStr (slice 119 127 line);
        VStr (slice 129 132 line)].
Proof.
  intros H. unfold parse_celestrak_row. cbv zeta.
  destruct (index_within 19 line ltac:(lia)) as (c19 & ->).
  destruct (index_within 20 line ltac:(lia)) as (c20 & ->).
  destruct (index_within 21 line ltac:(lia)) as (c21 & ->).
  exists c21. reflexivity.
Qed.

(** C5, as the code has it. The two flags are read by index, not by slice:
    whenever the parser returns, both flags are 1, so a flag is never 0; and
    a line that ends right after offset 19 makes the parser raise
    [IndexError] where the claim expects the flags 1 and 0. *)
Theorem flags_read_by_index :
  (forall line fields,
      parse_celestrak_row line = Ok fields ->
      nth_error fields 2 = Some (VInt 1) /\ nth_error fields 3 = Some (VInt 1))
  /\ (forall line,
      String.length line = 20%nat -> parse_celestrak_row line = Raise IndexError)
  /\ parse_celestrak_row "1957-001A    00001 D" = Raise IndexError.
Proof.
  split; [| split].
  - intros line fields H.
    destruct (Nat.le_gt_cases 22 (String.length line)) as [Hl | Hl].
    + destruct (parse_long_line line Hl) as (c & E). rewrite E in H.
      injection H as <-. split; reflexivity.
    + rewrite parse_short_line in H by assumption. discriminate.
  - intros line H. apply parse_short_line. lia.
  - vm_compute. reflexivity.
Qed.

Lemma flags_read_by_index_witness :
  (nth_error [VStr "1957-001A  "; VStr "00001"; VInt 1; VInt 1; VStr "D";
              VStr ""; VStr ""; VStr ""; VStr ""; VStr ""; VStr ""; VStr ""; VStr "";
              VStr ""; VStr ""; VStr ""] 2 = Some (VInt 1)
   /\ nth_error [VStr "1957-001A  "; VStr "00001"; VInt 1; VInt 1; VStr "D";
              VStr ""; VStr ""; VStr ""; VStr ""; VStr ""; VStr ""; VStr ""; VStr "";
              VStr ""; VStr ""; VStr ""] 3 = Some (VInt 1))
  /\ parse_celestrak_row "1957-001A    00001 *" = Raise IndexError.
Proof.
  split.
  - apply (proj1 flags_read_by_index "1957-001A    00001   D"). vm_compute. reflexivity.
  - apply (proj1 (proj2 flags_read_by_index) "1957-001A    00001 *"). reflexivity.
Defined.

(** C6, as the code has it. A line shorter than 22 characters makes the
    parser raise [IndexError]; a line of 22 characters or more gives the
    sixteen fields, and there a field sliced wholly past the end of the line
    is the empty string. *)
Theorem short_line_raises :
  (forall line,
      (String.length line < 22)%nat -> parse_celestrak_row line = Raise IndexError)
  /\ (forall line,
      (22 <= String.length line)%nat ->
      exists fields,
        parse_celestrak_row line = Ok fields /\ List.length fields = 16%nat)
  /\ (forall line a b, (String.length line <= a)%nat -> slice a b line = "")
  /\ parse_celestrak_row "" = Raise IndexError.
Proof.
  split; [exact parse_short_line | split; [| split]].
  - intros line H. destruct (parse_long_line line H) as (c & ->). eauto.
  - intros line a b H. unfold slice. now apply substring_past_end.
  - reflexivity.
Qed.

Lemma short_line_raises_witness :
  parse_celestrak_row "1957-001A    00001" = Raise IndexError
  /\ (exists fields,
        parse_celestrak_row "1957-001A    00001   D SL-1 R/B" = Ok fields
        /\ List.length fields = 16%nat)
  /\ slice 129 132 "1957-001A    00001   D SL-1 R/B" = "".
Proof.
  split; [| split].
  - apply (proj1 short_line_raises "1957-001A    00001"). vm_compute. lia.
  - apply (proj1 (proj2 short_line_raises) "1957-001A    00001   D SL-1 R/B").
    vm_compute. lia.
  - apply (proj1 (proj2 (proj2 short_line_raises)) "1957-001A    00001   D SL-1 R/B").
    vm_compute. lia.
Defined.

(** * The fingerprint of a row *)

Lemma hexdigest_length bytes :
  String.length (hexdigest bytes) = (2 * List.length bytes)%nat.
Proof.
  induction bytes as [|b bytes IH]; [reflexivity |].
  cbn [hexdigest String.length List.length]. rewrite IH. lia.
Qed.

Lemma le_bytes_length n : forall x, List.length (le_bytes n x) = n.
Proof. induction n as [|n IH]; intros x; cbn [le_bytes List.length]; [| rewrite IH]; reflexivity. Qed.

Lemma md5_length msg : List.length (md5 msg) = 16%nat.
Proof.
  unfold md5. cbv zeta.
  destruct (fold_left md5_block _ _) as [[[a b] c] d].
  now rewrite !length_app, !le_bytes_length.
Qed.

Lemma fingerprint_line_length line : String.length (fingerprint_line line) = 32%nat.
Proof. unfold fingerprint_line. now rewrite hexdigest_length, md5_length. Qed.

Lemma join_str_app row1 row2 : join_str (row1 ++ row2) = join_str row1 ++ join_str row2.
Proof.
  induction row1 as [|e row1 IH]; [reflexivity |].
  cbn [join_str fold_right List.app]. fold (join_str (row1 ++ row2)). fold (join_str row1).
  rewrite IH. clear IH. induction (str e) as [|c s IHs]; [reflexivity |].
  cbn [append]. now rewrite IHs.
Qed.

Lemma mapM_length {A B : Type} (f : A -> result B) l :
  forall out, mapM f l = Ok out -> List.length out = List.length l.
Proof.
  induction l as [|x l IH]; intros out; cbn [mapM].
  - now intros [= <-].
  - destruct (f x) as [y | e]; cbn [bind]; [| discriminate].
    destruct (mapM f l) as [ys | e]; cbn [bind]; [| discriminate].
    intros [= <-]. cbn [List.length]. now rewrite (IH ys eq_refl).
Qed.

(** C7, as the code has it. The fingerprint of a row is the MD5 digest, 32
    hexadecimal characters, of the string forms of its cells put end to end
    in column order with nothing between them, a missing value written
    [None]; it is the last cell of the row handed to the sink. Rows with the
    same joined text have the same fingerprint, whether or not their cells
    are the same. *)
Theorem fingerprint_of_joined_cells :
  (forall row1 row2, join_str (row1 ++ row2) = join_str row1 ++ join_str row2)
  /\ (forall e, join_str [e] = str e)
  /\ str VNone = "None"
  /\ (forall row, String.length (record_fingerprint row) = 32%nat)
  /\ record_fingerprint [VStr "abc"] = "900150983cd24fb0d6963f7d28e17f72"
  /\ (forall row out,
        savable row = Ok out ->
        List.length out = S (List.length row)
        /\ nth (List.length row) out VNone = VStr (record_fingerprint row))
  /\ (forall row1 row2,
        join_str row1 = join_str row2 ->
        record_fingerprint row1 = record_fingerprint row2).
Proof.
  split; [exact join_str_app |].
  split; [intros e; cbn; induction (str e) as [|c s IH]; cbn; [| rewrite IH]; reflexivity |].
  split; [reflexivity |].
  split; [intros row; apply fingerprint_line_length |].
  split; [vm_compute; reflexivity |].
  split.
  - intros row out. unfold savable.
    destruct (mapM format row) as [cells | e] eqn:E; cbn [bind]; [| discriminate].
    intros [= <-]. apply mapM_length in E.
    rewrite length_app, E. cbn [List.length]. split; [lia |].
    rewrite <- E, app_nth2, Nat.sub_diag by lia. reflexivity.
  - intros row1 row2 H. unfold record_fingerprint. now rewrite H.
Qed.

Lemma fingerprint_of_joined_cells_witness :
  (List.length [VInt 25544; VNone; VStr "b2d4082d5e6197e2dc614510463c9772"] = 3%nat
   /\ nth 2 [VInt 25544; VNone; VStr "b2d4082d5e6197e2dc614510463c9772"] VNone
      = VStr (record_fingerprint [VStr " 25544"; VStr "N/A"]))
  /\ record_fingerprint [VStr "ISS"; VStr " (ZARYA)"]
     = record_fingerprint [VStr "ISS "; VStr "(ZARYA)"].
Proof.
  split.
  - apply (proj1 (proj2 (proj2 (proj2 (proj2 (proj2 fingerprint_of_joined_cells)))))
             [VStr " 25544"; VStr "N/A"]).
    vm_compute. reflexivity.
  - apply (proj2 (proj2 (proj2 (proj2 (proj2 (proj2 fingerprint_of_joined_cells)))))).
    reflexivity.
Defined.

(** C7 does not hold as written: rows that differ in every cell can have the
    same fingerprint, because the cells are joined with nothing between
    them and a missing value is written like the text [None]. *)
Lemma fingerprint_collision :
  record_fingerprint [VInt 1; VInt 23] = record_fingerprint [VInt 12; VInt 3]
  /\ record_fingerprint [VNone] = record_fingerprint [VStr "None"]
  /\ record_fingerprint [VStr "ab"; VStr "c"] = record_fingerprint [VStr "a"; VStr "bc"].
Proof. split; [| split]; vm_compute; reflexivity. Qed.

(** * The reconciliation pass *)


Section UpdateAt.
Context {C : Type}.
Implicit Types (df : DataFrame C) (f g : Series C -> Series C).

Lemma update_at_twice f g df : forall i,
  update_at i f (update_at i g df) = update_at i (fun row => f (g row)) df.
Proof.
  induction df as [|row df IH]; intros [|i]; cbn [update_at]; try reflexivity.
  now rewrite IH.
Qed.

Lemma update_at_length f df : forall i, List.length (update_at i f df) = List.length df.
Proof.
  induction df as [|row df IH]; intros [|i]; cbn [update_at List.length]; try reflexivity.
  now rewrite IH.
Qed.

Lemma update_at_same f df : forall i,
  nth_error (update_at i f df) i = option_map f (nth_error df i).
Proof.
  induction df as [|row df IH]; intros [|i]; cbn [update_at nth_error option_map];
    try reflexivity.
  apply IH.
Qed.

Lemma update_at_other f df : forall i j,
  i <> j -> nth_error (update_at i f df) j = nth_error df j.
Proof.
  induction df as [|row df IH]; intros [|i] [|j] H; cbn [update_at nth_error];
    try reflexivity; try congruence.
  apply IH. congruence.
Qed.
End UpdateAt.

(** [loc] raises nothing but [KeyError]. *)
Lemma loc_raises {C : Type} (df : DataFrame C) key e :
  loc df key = Raise e -> e = KeyError.
Proof.
  assert (forall k, match (if (0 <=? k) && (k <? Z.of_nat (List.length df)) then
                             match nth_error df (Z.to_nat k) with
                             | Some row => Ok row
                             | None => Raise KeyError
                             end
                           else Raise KeyError) with
                    | Ok _ => True
                    | Raise e' => e' = KeyError
                    end) as Hat.
  { intros k. destruct (_ && _); [destruct (nth_error df (Z.to_nat k)) |]; easy. }
  unfold loc. destruct key as [|k|f|k|f|d|s|b|b]; try (now intros [= <-]).
  - intros H. specialize (Hat k). now rewrite H in Hat.
  - destruct (float_integral f) as [k|]; [| now intros [= <-]].
    intros H. specialize (Hat k). now rewrite H in Hat.
  - intros H. specialize (Hat k). now rewrite H in Hat.
  - destruct (float_integral f) as [k|]; [| now intros [= <-]].
    intros H. specialize (Hat k). now rewrite H in Hat.
Qed.

(** The loop body, by what the look-up comes to. *)
Lemma fix_row_look_up satcat randint i satdb_row st :
  fix_row satcat randint i satdb_row st =
  match look_up satcat satdb_row with
  | Hit satcat_row =>
      Ok (mkrun (update_at i (override satcat_row (randint (drawn st))) (frame st))
                (warnings st) (S (drawn st)))
  | Miss norad_number =>
      Ok (mkrun (frame st) (warnings st ++ [warning norad_number]) (drawn st))
  | Crash e => Raise e
  end.
Proof.
  unfold fix_row, look_up.
  destruct (format (satdb_row Satdb.norad_number)) as [key | e]; cbn [bind]; [| reflexivity].
  destruct (loc satcat key) as [satcat_row | e] eqn:E.
  - cbv zeta. unfold set_loc, override. f_equal. f_equal.
    destruct (randint (drawn st) <? 3); now rewrite !update_at_twice.
  - apply loc_raises in E. now subst e.
Qed.

Lemma look_up_not_crash satcat row :
  no_crash satcat row = true ->
  (exists satcat_row, look_up satcat row = Hit satcat_row)
  \/ (exists key, look_up satcat row = Miss key).
Proof. unfold no_crash. destruct (look_up satcat row); eauto. discriminate. Qed.

(** The loop from the row of label [i] on, on a frame that has these rows
    from place [i] on. *)
Lemma fix_rows_spec satcat randint rows : forall i st,
  forallb (no_crash satcat) rows = true ->
  exists st',
    fix_rows satcat randint (combine (seq i (List.length rows)) rows) st = Ok st'
    /\ List.length (frame st') = List.length (frame st)
    /\ drawn st' = (drawn st + hits satcat rows)%nat
    /\ warnings st' = (warnings st ++ missed satcat rows)%list
    /\ (forall j, (j < i)%nat -> nth_error (frame st') j = nth_error (frame st) j)
    /\ (forall k row,
          nth_error rows k = Some row ->
          nth_error (frame st') (i + k)
          = option_map
              (patch satcat (randint (drawn st + hits satcat (firstn k rows))%nat) row)
              (nth_error (frame st) (i + k))).
Proof.
  induction rows as [|row rows IH]; intros i st Hok.
  - exists st. cbn. rewrite app_nil_r, Nat.add_0_r.
    repeat split; try reflexivity. intros [|k] r; discriminate.
  - cbn [forallb] in Hok. apply andb_prop in Hok as [Hrow Hrows].
    cbn [List.length seq combine fix_rows].
    rewrite fix_row_look_up.
    destruct (look_up_not_crash satcat row Hrow) as [(crow & E) | (key & E)].
    + assert (forall l, hits satcat (row :: l) = S (hits satcat l)) as Hc.
      { intros l. unfold hits, is_hit. cbn [filter]. now rewrite E. }
      assert (missed satcat (row :: rows) = missed satcat rows) as Hm.
      { unfold missed. cbn [flat_map]. now rewrite E. }
      assert (forall draw, patch satcat draw row = override crow draw) as Hp.
      { intros draw. unfold patch. now rewrite E. }
      rewrite E. cbn [bind].
      destruct (IH (S i)
                  (mkrun (update_at i (override crow (randint (drawn st))) (frame st))
                         (warnings st) (S (drawn st))) Hrows)
        as (st' & Hrun & Hlen & Hdrawn & Hwarn & Hbefore & Hat).
      cbn [frame warnings drawn] in *.
      exists st'. split; [exact Hrun |].
      split; [now rewrite Hlen, update_at_length |].
      split; [rewrite Hdrawn, Hc; lia |].
      split; [now rewrite Hm |].
      split.
      * intros j Hj. rewrite Hbefore by lia. apply update_at_other. lia.
      * intros [|k] r Hr; cbn [nth_error] in Hr.
        -- injection Hr as <-.
           rewrite Nat.add_0_r, Hbefore by lia. cbn [firstn].
           replace (hits satcat []) with 0%nat by reflexivity.
           rewrite Nat.add_0_r, Hp. apply update_at_same.
        -- replace (i + S k)%nat with (S i + k)%nat by lia.
           rewrite (Hat k r Hr), update_at_other by lia.
           cbn [firstn]. rewrite Hc.
           now replace (drawn st + S (hits satcat (firstn k rows)))%nat
             with (S (drawn st) + hits satcat (firstn k rows))%nat by lia.
    + assert (forall l, hits satcat (row :: l) = hits satcat l) as Hc.
      { intros l. unfold hits, is_hit. cbn [filter]. now rewrite E. }
      assert (missed satcat (row :: rows) = warning key :: missed satcat rows) as Hm.
      { unfold missed. cbn [flat_map]. now rewrite E. }
      assert (forall draw r, patch satcat draw row r = r) as Hp.
      { intros draw r. unfold patch. now rewrite E. }
      rewrite E. cbn [bind].
      destruct (IH (S i)
                  (mkrun (frame st) (warnings st ++ [warning key]) (drawn st)) Hrows)
        as (st' & Hrun & Hlen & Hdrawn & Hwarn & Hbefore & Hat).
      cbn [frame warnings drawn] in *.
      exists st'. split; [exact Hrun |].
      split; [exact Hlen |].
      split; [now rewrite Hdrawn, Hc |].
      split; [now rewrite Hwarn, Hm, <- app_assoc |].
      split.
      * intros j Hj. apply Hbefore. lia.
      * intros [|k] r Hr; cbn [nth_error] in Hr.
        -- injection Hr as <-.
           rewrite Nat.add_0_r, Hbefore by lia.
           destruct (nth_error (frame st) i); cbn [option_map]; [| reflexivity].
           now rewrite Hp.
        -- replace (i + S k)%nat with (S i + k)%nat by lia.
           rewrite (Hat k r Hr). cbn [firstn]. now rewrite Hc.
Qed.

(** The pass on a registry none of whose rows leaves the loop by an
    exception: every row is patched by its own look-up, with the draw that
    the rows found before it have left, and the warnings are those of the
    rows missed, in order. *)
Lemma fix_discrepencies_spec satdb satcat randint :
  forallb (no_crash satcat) satdb = true ->
  exists frame',
    fix_discrepencies satdb satcat randint = Ok (frame', missed satcat satdb)
    /\ List.length frame' = List.length satdb
    /\ (forall k row,
          nth_error satdb k = Some row ->
          nth_error frame' k
          = Some (patch satcat (randint (hits satcat (firstn k satdb))) row row)).
Proof.
  intros Hok. unfold fix_discrepencies, iterrows.
  destruct (fix_rows_spec satcat randint satdb 0%nat (mkrun satdb [] 0) Hok)
    as (st' & -> & Hlen & _ & Hwarn & _ & Hat).
  cbn [bind frame warnings drawn] in *. exists (frame st').
  rewrite Hwarn. split; [reflexivity |]. split; [exact Hlen |].
  intros k row Hk. specialize (Hat k row Hk). cbn [Nat.add] in Hat.
  now rewrite Hat, Hk.
Qed.

(** A row whose key cannot be read stops the pass: [format] is called
    outside the [try]. *)
Lemma fix_rows_crash satcat randint rows : forall (labels : list nat) st,
  List.length labels = List.length rows ->
  forallb (no_crash satcat) rows = false ->
  exists e, fix_rows satcat randint (combine labels rows) st = Raise e.
Proof.
  induction rows as [|row rows IH]; intros labels st Hlen Hbad; [discriminate |].
  destruct labels as [|i labels]; [discriminate |].
  cbn [combine fix_rows]. rewrite fix_row_look_up.
  cbn [forallb] in Hbad. unfold no_crash at 1 in Hbad.
  destruct (look_up satcat row) as [crow | key | e]; cbn [bind].
  - apply IH; [now injection Hlen | exact Hbad].
  - apply IH; [now injection Hlen | exact Hbad].
  - eauto.
Qed.

(** The columns of a row after the nine assignments. *)
Lemma override_cells satcat_row draw row :
  override satcat_row draw row Satdb.name
  = (if draw <? 3 then VStr placeholder else satcat_row Satcat.name)
  /\ override satcat_row draw row Satdb.perigee_km = satcat_row Satcat.perigee
  /\ override satcat_row draw row Satdb.apogee_km = satcat_row Satcat.apogee
  /\ override satcat_row draw row Satdb.inclination_degrees
     = satcat_row Satcat.inclination_deg
  /\ override satcat_row draw row Satdb.period_minutes
     = satcat_row Satcat.orbit_period_minutes
  /\ override satcat_row draw row Satdb.launch_date = satcat_row Satcat.launch_date
  /\ override satcat_row draw row Satdb.launch_site = satcat_row Satcat.launch_site
  /\ override satcat_row draw row Satdb.international_designator
     = satcat_row Satcat.intl_desg
  /\ (forall c, overridden c = false -> override satcat_row draw row c = row c).
Proof.
  unfold override. destruct (draw <? 3); repeat split; try reflexivity;
    intros c Hc; destruct c; try discriminate Hc; reflexivity.
Qed.

(** * The reconciliation claims *)

Lemma look_up_hit satcat row key satcat_row :
  format (row Satdb.norad_number) = Ok key -> loc satcat key = Ok satcat_row ->
  look_up satcat row = Hit satcat_row.
Proof. intros Hf Hl. unfold look_up. now rewrite Hf, Hl. Qed.

Lemma look_up_miss satcat row key e :
  format (row Satdb.norad_number) = Ok key -> loc satcat key = Raise e ->
  look_up satcat row = Miss key.
Proof.
  intros Hf Hl. pose proof (loc_raises satcat key e Hl) as ->.
  unfold look_up. now rewrite Hf, Hl.
Qed.

Lemma loc_at_place {C : Type} (df : DataFrame C) n row :
  0 <= n -> nth_error df (Z.to_nat n) = Some row -> loc df (VInt n) = Ok row.
Proof.
  intros Hn Hrow. unfold loc.
  assert (Z.to_nat n < List.length df)%nat as Hlt
    by (apply nth_error_Some; congruence).
  replace ((0 <=? n) && (n <? Z.of_nat (List.length df))) with true;
    [now rewrite Hrow |].
  symmetry. apply andb_true_intro. split; [apply Z.leb_le | apply Z.ltb_lt]; lia.
Qed.

Lemma loc_in_range {C : Type} (df : DataFrame C) n :
  0 <= n < Z.of_nat (List.length df) ->
  exists row, nth_error df (Z.to_nat n) = Some row /\ loc df (VInt n) = Ok row.
Proof.
  intros Hn. destruct (nth_error df (Z.to_nat n)) as [row|] eqn:E.
  - exists row. split; [reflexivity |]. apply loc_at_place; [lia | exact E].
  - apply nth_error_None in E. lia.
Qed.

Lemma loc_out_of_range {C : Type} (df : DataFrame C) n :
  n < 0 \/ Z.of_nat (List.length df) <= n -> loc df (VInt n) = Raise KeyError.
Proof.
  intros H. unfold loc.
  replace ((0 <=? n) && (n <? Z.of_nat (List.length df))) with false; [reflexivity |].
  symmetry. apply andb_false_iff.
  destruct H as [H | H]; [left; apply Z.leb_gt | right; apply Z.ltb_ge]; lia.
Qed.

Lemma patch_hit satcat draw row satcat_row :
  look_up satcat row = Hit satcat_row -> patch satcat draw row = override satcat_row draw.
Proof. intros E. unfold patch. now rewrite E. Qed.

Lemma patch_miss satcat draw row key r :
  look_up satcat row = Miss key -> patch satcat draw row r = r.
Proof. intros E. unfold patch. now rewrite E. Qed.

Lemma missed_in satcat rows : forall k row key,
  nth_error rows k = Some row -> look_up satcat row = Miss key ->
  In (warning key) (missed satcat rows).
Proof.
  unfold missed. intros k row key Hk E. apply in_flat_map.
  exists row. split; [now apply nth_error_In with k | rewrite E; now left].
Qed.

Lemma hits_and_misses satcat rows :
  forallb (no_crash satcat) rows = true ->
  (hits satcat rows + List.length (missed satcat rows))%nat = List.length rows.
Proof.
  induction rows as [|row rows IH]; [reflexivity |].
  cbn [forallb]. intros H. apply andb_prop in H as [Hrow Hrows].
  specialize (IH Hrows). unfold hits, missed, is_hit in *. cbn [filter flat_map].
  destruct (look_up_not_crash satcat row Hrow) as [(crow & E) | (key & E)]; rewrite E;
    cbn [List.length List.app]; lia.
Qed.

Lemma override_but_name satcat_row draw1 draw2 row c :
  c <> Satdb.name -> override satcat_row draw1 row c = override satcat_row draw2 row c.
Proof.
  intros Hc. unfold override.
  destruct (draw1 <? 3), (draw2 <? 3), c; try reflexivity; congruence.
Qed.

(** The cell an assignment of the loop body leaves is the cell it reads. *)
Lemma override_source satcat_row draw row c c' :
  source c = Some c' -> c <> Satdb.name -> override satcat_row draw row c = satcat_row c'.
Proof.
  intros Hs Hc. unfold override.
  destruct (draw <? 3), c; try discriminate Hs; try congruence;
    injection Hs as <-; reflexivity.
Qed.

Lemma override_name satcat_row draw row :
  override satcat_row draw row Satdb.name
  = if draw <? 3 then VStr placeholder else satcat_row Satcat.name.
Proof. unfold override. now destruct (draw <? 3). Qed.

Lemma override_others satcat_row draw row c :
  overridden c = false -> override satcat_row draw row c = row c.
Proof. intros Hc. now apply override_cells. Qed.

(** C1, as the code has it. The frame of the catalogue keeps the default
    index, one label a line, because the result of [set_index] is dropped;
    so every whole number from 0 to the number of lines less one finds the
    row at that place, whatever catalogue number the row holds. A registry
    row whose number reads as the integer [n] takes its designator and, when
    its draw is 3 or more, its name from the text of the catalogue row at
    place [n]; and it is reported as not found when [n] is no place of the
    catalogue, whatever numbers the catalogue holds. With the two sample
    lines, the registry row of number 1 gets the name of satellite 2, and the
    registry row of number 2 is not found. *)
Theorem look_up_by_place :
  (forall lines satcat,
      load_celestrak_satcat_data lines = Ok satcat ->
      List.length satcat = List.length lines)
  /\ (forall (satcat : DataFrame Satcat.column) n,
        0 <= n < Z.of_nat (List.length satcat) ->
        exists satcat_row,
          nth_error satcat (Z.to_nat n) = Some satcat_row
          /\ loc satcat (VInt n) = Ok satcat_row)
  /\ (forall satdb satcat randint k row n satcat_row,
        forallb (no_crash satcat) satdb = true ->
        nth_error satdb k = Some row ->
        format (row Satdb.norad_number) = Ok (VInt n) ->
        0 <= n -> nth_error satcat (Z.to_nat n) = Some satcat_row ->
        exists frame' warns row',
          fix_discrepencies satdb satcat randint = Ok (frame', warns)
          /\ nth_error frame' k = Some row'
          /\ (forall t, satcat_row Satcat.intl_desg = VStr t ->
                        row' Satdb.international_designator = VStr t)
          /\ (forall t, satcat_row Satcat.name = VStr t ->
                        3 <= randint (hits satcat (firstn k satdb)) ->
                        row' Satdb.name = VStr t))
  /\ (forall satdb satcat randint k row n,
        forallb (no_crash satcat) satdb = true ->
        nth_error satdb k = Some row ->
        format (row Satdb.norad_number) = Ok (VInt n) ->
        n < 0 \/ Z.of_nat (List.length satcat) <= n ->
        exists frame' warns,
          fix_discrepencies satdb satcat randint = Ok (frame', warns)
          /\ In (warning (VInt n)) warns)
  /\ column_after Satdb.name
       (satcat <- load_celestrak_satcat_data sample_lines ;;
        fix_discrepencies [registry_row "Sputnik rocket" (VNpInt 1)] satcat (fun _ => 50))
     = Ok ([VStr "SPUTNIK 1"], [])
  /\ column_after Satdb.name
       (satcat <- load_celestrak_satcat_data sample_lines ;;
        fix_discrepencies [registry_row "Sputnik" (VNpInt 2)] satcat (fun _ => 50))
     = Ok ([VStr "Sputnik"], [warning (VInt 2)]).
Proof.
  split; [| split; [| split; [| split; [| split; vm_compute; reflexivity]]]].
  - intros lines satcat. unfold load_celestrak_satcat_data.
    destruct (mapM _ lines) as [data | e] eqn:E; cbn [bind]; [| discriminate].
    intros [= <-]. rewrite length_map. now apply mapM_length in E.
  - intros satcat n. apply loc_in_range.
  - intros satdb satcat randint k row n crow Hok Hk Hf Hn Hrow.
    destruct (fix_discrepencies_spec satdb satcat randint Hok) as (frame' & Hrun & _ & Hat).
    pose proof (look_up_hit satcat row _ crow Hf (loc_at_place satcat n crow Hn Hrow)) as E.
    specialize (Hat k row Hk). rewrite (patch_hit _ _ _ _ E) in Hat.
    exists frame', (missed satcat satdb), (override crow (randint (hits satcat (firstn k satdb))) row).
    split; [exact Hrun |]. split; [exact Hat |]. split.
    + intros t Ht. rewrite (override_source crow _ row _ Satcat.intl_desg); easy.
    + intros t Ht Hdraw. rewrite override_name.
      now replace (_ <? 3) with false by (symmetry; apply Z.ltb_ge; lia).
  - intros satdb satcat randint k row n Hok Hk Hf Hn.
    destruct (fix_discrepencies_spec satdb satcat randint Hok) as (frame' & Hrun & _ & _).
    pose proof (look_up_miss satcat row _ _ Hf (loc_out_of_range satcat n Hn)) as E.
    exists frame', (missed satcat satdb).
    split; [exact Hrun |]. now apply missed_in with k row.
Qed.

Lemma look_up_by_place_witness :
  (exists satcat_row,
      nth_error [catalogue_row "1957-001A" 1 "SL-1 R/B" 214;
                 catalogue_row "1957-001B" 2 "SPUTNIK 1" 64] (Z.to_nat 1)
      = Some satcat_row
      /\ loc [catalogue_row "1957-001A" 1 "SL-1 R/B" 214;
              catalogue_row "1957-001B" 2 "SPUTNIK 1" 64] (VInt 1) = Ok satcat_row)
  /\ (exists frame' warns row',
      fix_discrepencies [registry_row "Sputnik rocket" (VNpInt 1)]
        [catalogue_row "1957-001A" 1 "SL-1 R/B" 214;
         catalogue_row "1957-001B" 2 "SPUTNIK 1" 64] (fun _ => 50)
      = Ok (frame', warns)
      /\ nth_error frame' 0 = Some row'
      /\ (forall t, VStr "1957-001B" = VStr t ->
                    row' Satdb.international_designator = VStr t)
      /\ (forall t, VStr "SPUTNIK 1" = VStr t -> 3 <= 50 -> row' Satdb.name = VStr t))
  /\ (exists frame' warns,
      fix_discrepencies [registry_row "Sputnik" (VNpInt 2)]
        [catalogue_row "1957-001A" 1 "SL-1 R/B" 214;
         catalogue_row "1957-001B" 2 "SPUTNIK 1" 64] (fun _ => 50)
      = Ok (frame', warns)
      /\ In (warning (VInt 2)) warns).
Proof.
  split; [| split].
  - apply (proj1 (proj2 look_up_by_place)
             [catalogue_row "1957-001A" 1 "SL-1 R/B" 214;
              catalogue_row "1957-001B" 2 "SPUTNIK 1" 64] 1).
    simpl. lia.
  - apply (proj1 (proj2 (proj2 look_up_by_place))
             [registry_row "Sputnik rocket" (VNpInt 1)]
             [catalogue_row "1957-001A" 1 "SL-1 R/B" 214;
              catalogue_row "1957-001B" 2 "SPUTNIK 1" 64] (fun _ => 50)
             0%nat (registry_row "Sputnik rocket" (VNpInt 1)) 1
             (catalogue_row "1957-001B" 2 "SPUTNIK 1" 64));
      [vm_compute; reflexivity | reflexivity | reflexivity | lia | reflexivity].
  - apply (proj1 (proj2 (proj2 (proj2 look_up_by_place)))
             [registry_row "Sputnik" (VNpInt 2)]
             [catalogue_row "1957-001A" 1 "SL-1 R/B" 214;
              catalogue_row "1957-001B" 2 "SPUTNIK 1" 64] (fun _ => 50)
             0%nat (registry_row "Sputnik" (VNpInt 2)) 2);
      [vm_compute; reflexivity | reflexivity | reflexivity | right; simpl; lia].
Defined.

(** * The override, the rows not found and the draws *)

(** C2, as the code has it. A registry row for which the look-up returns a
    catalogue row keeps every column outside the eight; each of the eight
    columns whose catalogue cell is text reads as that text afterwards, the
    name apart: the name is the placeholder when the draw made for the row
    is below 3, whatever the catalogue holds, and the name of the catalogue
    row only when the draw is 3 or more. The draw made for a row is the one
    numbered by the rows found before it. On the sample line of catalogue
    number 0 and a draw of 1, the registry row of number 0 is named by the
    placeholder, not SL-1 R/B. *)
Theorem override_eight_columns :
  (forall satdb satcat randint k row key satcat_row,
      forallb (no_crash satcat) satdb = true ->
      nth_error satdb k = Some row ->
      format (row Satdb.norad_number) = Ok key ->
      loc satcat key = Ok satcat_row ->
      exists frame' warns row',
        fix_discrepencies satdb satcat randint = Ok (frame', warns)
        /\ nth_error frame' k = Some row'
        /\ (randint (hits satcat (firstn k satdb)) < 3 ->
            row' Satdb.name = VStr placeholder)
        /\ (3 <= randint (hits satcat (firstn k satdb)) ->
            forall t, satcat_row Satcat.name = VStr t -> row' Satdb.name = VStr t)
        /\ (forall c c' t, source c = Some c' -> c <> Satdb.name ->
                           satcat_row c' = VStr t -> row' c = VStr t)
        /\ (forall c, overridden c = false -> row' c = row c))
  /\ column_after Satdb.name
       (satcat <- load_celestrak_satcat_data [zero_line] ;;
        fix_discrepencies [registry_row "Sputnik rocket" (VNpInt 0)] satcat (fun _ => 1))
     = Ok ([VStr "BLAH BLAH BLAH"], [])
  /\ (satcat <- load_celestrak_satcat_data [zero_line] ;;
      Ok (map (fun row => (row Satcat.norad_num, row Satcat.name)) satcat))
     = Ok [(VInt 0, VStr "SL-1 R/B")].
Proof.
  split; [| split; vm_compute; reflexivity].
  intros satdb satcat randint k row key satcat_row Hok Hk Hf Hl.
  destruct (fix_discrepencies_spec satdb satcat randint Hok) as (frame' & Hrun & _ & Hat).
  specialize (Hat k row Hk).
  rewrite (patch_hit _ _ _ _ (look_up_hit satcat row key satcat_row Hf Hl)) in Hat.
  exists frame', (missed satcat satdb),
    (override satcat_row (randint (hits satcat (firstn k satdb))) row).
  split; [exact Hrun |]. split; [exact Hat |]. split; [| split; [| split]].
  - intros Hlow. rewrite override_name.
    now replace (_ <? 3) with true by (symmetry; now apply Z.ltb_lt).
  - intros Hdraw t Ht. rewrite override_name.
    now replace (_ <? 3) with false by (symmetry; apply Z.ltb_ge; lia).
  - intros c c' t Hs Hc Ht. now rewrite (override_source _ _ _ c c').
  - intros c Hc. now apply override_others.
Qed.

Lemma override_eight_columns_witness :
  exists frame' warns row',
    fix_discrepencies
      [registry_row "Unlisted" (VStr "none"); registry_row "Sputnik rocket" (VNpInt 0)]
      [catalogue_row "1957-001A" 0 "SL-1 R/B" 214] (fun _ => 2)
    = Ok (frame', warns)
    /\ nth_error frame' 1 = Some row'
    /\ (2 < 3 -> row' Satdb.name = VStr placeholder)
    /\ (3 <= 2 ->
        forall t, VStr "SL-1 R/B" = VStr t -> row' Satdb.name = VStr t)
    /\ (forall c c' t, source c = Some c' -> c <> Satdb.name ->
                       catalogue_row "1957-001A" 0 "SL-1 R/B" 214 c' = VStr t ->
                       row' c = VStr t)
    /\ (forall c, overridden c = false ->
                  row' c = registry_row "Sputnik rocket" (VNpInt 0) c).
Proof.
  apply (proj1 override_eight_columns
           [registry_row "Unlisted" (VStr "none"); registry_row "Sputnik rocket" (VNpInt 0)]
           [catalogue_row "1957-001A" 0 "SL-1 R/B" 214] (fun _ => 2)
           1%nat (registry_row "Sputnik rocket" (VNpInt 0)) (VInt 0)
           (catalogue_row "1957-001A" 0 "SL-1 R/B" 214));
    [vm_compute; reflexivity | reflexivity | reflexivity | reflexivity].
Defined.

(** C3, as the code has it. When the look-up raises, the warning for the
    key is logged, one warning a row not found, the loop goes on, and the
    row keeps every column outside the eight and every cell that holds
    text; every row is either found or warned about. What is found is
    decided by place: a key that is a place of the catalogue is found
    whatever numbers the catalogue holds, so the registry row of number 0 is
    overridden from the first sample line without a warning. A key that
    [format] cannot read stops the pass with an exception. *)
Theorem miss_keeps_row :
  (forall satdb satcat randint k row key e,
      forallb (no_crash satcat) satdb = true ->
      nth_error satdb k = Some row ->
      format (row Satdb.norad_number) = Ok key ->
      loc satcat key = Raise e ->
      exists frame' row',
        fix_discrepencies satdb satcat randint = Ok (frame', missed satcat satdb)
        /\ List.length frame' = List.length satdb
        /\ nth_error frame' k = Some row'
        /\ (forall c, overridden c = false -> row' c = row c)
        /\ (forall c t, row c = VStr t -> row' c = VStr t)
        /\ In (warning key) (missed satcat satdb)
        /\ (hits satcat satdb + List.length (missed satcat satdb))%nat
           = List.length satdb)
  /\ (forall satdb satcat randint,
        forallb (no_crash satcat) satdb = false ->
        exists e, fix_discrepencies satdb satcat randint = Raise e)
  /\ (forall (satcat : DataFrame Satcat.column) n,
        0 <= n < Z.of_nat (List.length satcat) ->
        exists satcat_row, loc satcat (VInt n) = Ok satcat_row)
  /\ column_after Satdb.name
       (satcat <- load_celestrak_satcat_data sample_lines ;;
        fix_discrepencies [registry_row "Test object" (VNpInt 0)] satcat (fun _ => 50))
     = Ok ([VStr "SL-1 R/B"], []).
Proof.
  split; [| split; [| split; [| vm_compute; reflexivity]]].
  - intros satdb satcat randint k row key e Hok Hk Hf Hl.
    destruct (fix_discrepencies_spec satdb satcat randint Hok)
      as (frame' & Hrun & Hlen & Hat).
    pose proof (look_up_miss satcat row key e Hf Hl) as E.
    specialize (Hat k row Hk). rewrite (patch_miss _ _ _ _ _ E) in Hat.
    exists frame', row. split; [exact Hrun |]. split; [exact Hlen |].
    split; [exact Hat |]. split; [reflexivity |]. split; [now intros c t Ht |].
    split; [now apply missed_in with k row | now apply hits_and_misses].
  - intros satdb satcat randint Hbad. unfold fix_discrepencies, iterrows.
    destruct (fix_rows_crash satcat randint satdb (seq 0 (List.length satdb))
                (mkrun satdb [] 0) (length_seq _ _) Hbad) as (e & ->).
    now exists e.
  - intros satcat n Hn. destruct (loc_in_range satcat n Hn) as (crow & _ & H). eauto.
Qed.

Lemma miss_keeps_row_witness :
  (exists frame' row',
      fix_discrepencies
        [registry_row "Unlisted" (VStr "none"); registry_row "Sputnik rocket" (VNpInt 0)]
        [catalogue_row "1957-001A" 0 "SL-1 R/B" 214] (fun _ => 50)
      = Ok (frame',
            missed [catalogue_row "1957-001A" 0 "SL-1 R/B" 214]
              [registry_row "Unlisted" (VStr "none");
               registry_row "Sputnik rocket" (VNpInt 0)])
      /\ List.length frame' = 2%nat
      /\ nth_error frame' 0 = Some row'
      /\ (forall c, overridden c = false ->
                    row' c = registry_row "Unlisted" (VStr "none") c)
      /\ (forall c t, registry_row "Unlisted" (VStr "none") c = VStr t ->
                      row' c = VStr t)
      /\ In (warning (VStr "none"))
            (missed [catalogue_row "1957-001A" 0 "SL-1 R/B" 214]
               [registry_row "Unlisted" (VStr "none");
                registry_row "Sputnik rocket" (VNpInt 0)])
      /\ (hits [catalogue_row "1957-001A" 0 "SL-1 R/B" 214]
            [registry_row "Unlisted" (VStr "none");
             registry_row "Sputnik rocket" (VNpInt 0)]
          + List.length
              (missed [catalogue_row "1957-001A" 0 "SL-1 R/B" 214]
                 [registry_row "Unlisted" (VStr "none");
                  registry_row "Sputnik rocket" (VNpInt 0)]))%nat = 2%nat)
  /\ (exists e,
        fix_discrepencies
          [registry_row "Flagged" (VBool true)]
          [catalogue_row "1957-001A" 0 "SL-1 R/B" 214] (fun _ => 50)
        = Raise e)
  /\ (exists satcat_row,
        loc [catalogue_row "1957-001A" 1 "SL-1 R/B" 214] (VInt 0) = Ok satcat_row).
Proof.
  split; [| split].
  - apply (proj1 miss_keeps_row
             [registry_row "Unlisted" (VStr "none"); registry_row "Sputnik rocket" (VNpInt 0)]
             [catalogue_row "1957-001A" 0 "SL-1 R/B" 214] (fun _ => 50)
             0%nat (registry_row "Unlisted" (VStr "none")) (VStr "none") KeyError);
      [vm_compute; reflexivity | reflexivity | vm_compute; reflexivity | reflexivity].
  - apply (proj1 (proj2 miss_keeps_row)). vm_compute. reflexivity.
  - apply (proj1 (proj2 (proj2 miss_keeps_row))). simpl. lia.
Defined.

(** C4, as the code has it. The pass depends on the draws of
    [random.randint] as well as on the two frames: two runs on the same
    frames log the same warnings and agree on every column but the name;
    they agree on the names too when their draws agree; a row that is found
    is named by the placeholder when its own draw is below 3, and by the
    text of the name of its catalogue row when no draw is below 3. On the
    sample line of catalogue number 0, a run that draws 2 and a run that
    draws 3 name the same registry row differently. *)
Theorem runs_agree_but_for_names :
  (forall satdb satcat randint1 randint2,
      forallb (no_crash satcat) satdb = true ->
      exists frame1 frame2 warns,
        fix_discrepencies satdb satcat randint1 = Ok (frame1, warns)
        /\ fix_discrepencies satdb satcat randint2 = Ok (frame2, warns)
        /\ List.length frame1 = List.length frame2
        /\ (forall k row1 row2 c,
              nth_error frame1 k = Some row1 -> nth_error frame2 k = Some row2 ->
              c <> Satdb.name -> row1 c = row2 c)
        /\ ((forall n, randint1 n = randint2 n) ->
            forall k row1 row2 c,
              nth_error frame1 k = Some row1 -> nth_error frame2 k = Some row2 ->
              row1 c = row2 c)
        /\ (forall k row satcat_row,
              nth_error satdb k = Some row -> look_up satcat row = Hit satcat_row ->
              exists row1,
                nth_error frame1 k = Some row1
                /\ ((forall n, 3 <= randint1 n) ->
                    forall t, satcat_row Satcat.name = VStr t ->
                              row1 Satdb.name = VStr t)
                /\ (randint1 (hits satcat (firstn k satdb)) < 3 ->
                    row1 Satdb.name = VStr placeholder)))
  /\ column_after Satdb.name
       (satcat <- load_celestrak_satcat_data [zero_line] ;;
        fix_discrepencies [registry_row "Sputnik rocket" (VNpInt 0)] satcat (fun _ => 2))
     = Ok ([VStr "BLAH BLAH BLAH"], [])
  /\ column_after Satdb.name
       (satcat <- load_celestrak_satcat_data [zero_line] ;;
        fix_discrepencies [registry_row "Sputnik rocket" (VNpInt 0)] satcat (fun _ => 3))
     = Ok ([VStr "SL-1 R/B"], []).
Proof.
  split; [| split; vm_compute; reflexivity].
  intros satdb satcat randint1 randint2 Hok.
  destruct (fix_discrepencies_spec satdb satcat randint1 Hok) as (f1 & Hrun1 & Hlen1 & Hat1).
  destruct (fix_discrepencies_spec satdb satcat randint2 Hok) as (f2 & Hrun2 & Hlen2 & Hat2).
  exists f1, f2, (missed satcat satdb).
  split; [exact Hrun1 |]. split; [exact Hrun2 |]. split; [congruence |].
  assert (forall k row1, nth_error f1 k = Some row1 ->
                         exists row, nth_error satdb k = Some row) as Hin.
  { intros k row1 H1. destruct (nth_error satdb k) as [row|] eqn:E; [eauto |].
    apply nth_error_None in E. rewrite <- Hlen1 in E.
    apply nth_error_None in E. congruence. }
  split; [| split].
  - intros k row1 row2 c H1 H2 Hc. destruct (Hin k row1 H1) as (row & Hk).
    rewrite (Hat1 k row Hk) in H1. rewrite (Hat2 k row Hk) in H2.
    injection H1 as <-. injection H2 as <-. unfold patch.
    destruct (look_up satcat row); try reflexivity. now apply override_but_name.
  - intros Hsame k row1 row2 c H1 H2. destruct (Hin k row1 H1) as (row & Hk).
    rewrite (Hat1 k row Hk) in H1. rewrite (Hat2 k row Hk) in H2.
    injection H1 as <-. injection H2 as <-. now rewrite Hsame.
  - intros k row crow Hk E. eexists. split; [apply (Hat1 k row Hk) |].
    rewrite (patch_hit _ _ _ _ E), override_name.
    split.
    + intros Hall t Ht. specialize (Hall (hits satcat (firstn k satdb))).
      now replace (_ <? 3) with false by (symmetry; apply Z.ltb_ge; lia).
    + intros Hlow. now replace (_ <? 3) with true by (symmetry; now apply Z.ltb_lt).
Qed.

Lemma runs_agree_but_for_names_witness :
  exists frame1 frame2 warns,
    fix_discrepencies
      [registry_row "Unlisted" (VStr "none"); registry_row "Sputnik rocket" (VNpInt 0)]
      [catalogue_row "1957-001A" 0 "SL-1 R/B" 214] (fun _ => 1)
    = Ok (frame1, warns)
    /\ fix_discrepencies
         [registry_row "Unlisted" (VStr "none"); registry_row "Sputnik rocket" (VNpInt 0)]
         [catalogue_row "1957-001A" 0 "SL-1 R/B" 214] (fun _ => 50)
       = Ok (frame2, warns)
    /\ List.length frame1 = List.length frame2
    /\ (forall k row1 row2 c,
          nth_error frame1 k = Some row1 -> nth_error frame2 k = Some row2 ->
          c <> Satdb.name -> row1 c = row2 c)
    /\ ((forall n, (fun _ : nat => 1) n = (fun _ : nat => 50) n) ->
        forall k row1 row2 c,
          nth_error frame1 k = Some row1 -> nth_error frame2 k = Some row2 ->
          row1 c = row2 c)
    /\ (forall k row satcat_row,
          nth_error
            [registry_row "Unlisted" (VStr "none");
             registry_row "Sputnik rocket" (VNpInt 0)] k = Some row ->
          look_up [catalogue_row "1957-001A" 0 "SL-1 R/B" 214] row = Hit satcat_row ->
          exists row1,
            nth_error frame1 k = Some row1
            /\ ((forall n : nat, 3 <= 1) ->
                forall t, satcat_row Satcat.name = VStr t -> row1 Satdb.name = VStr t)
            /\ (1 < 3 -> row1 Satdb.name = VStr placeholder)).
Proof.
  apply (proj1 runs_agree_but_for_names
           [registry_row "Unlisted" (VStr "none"); registry_row "Sputnik rocket" (VNpInt 0)]
           [catalogue_row "1957-001A" 0 "SL-1 R/B" 214] (fun _ => 1) (fun _ => 50)).
  vm_compute. reflexivity.
Defined.

(** * What the value coercer returns *)


Lemma new_date_some y m d dt : new_date y m d = Some dt -> valid_date dt = true.
Proof.
  unfold new_date, valid_date. destruct (_ && _) eqn:E; [| discriminate].
  intros [= <-]. exact E.
Qed.

Lemma strptime_valid data fmt d : strptime data fmt = Some d -> valid_date d = true.
Proof.
  unfold strptime. destruct (directives fmt) as [ds|]; [| discriminate].
  destruct (match_re ds data) as [[groups [|c r]]|]; try discriminate.
  destruct (read_groups groups (1900, 1, 1)) as [[[y m] dd]|]; [| discriminate].
  apply new_date_some.
Qed.

(** The five ways [format] ends on a string. *)
Lemma format_str_cases s :
  (exists n, format (VStr s) = Ok (VInt n))
  \/ (exists f, format (VStr s) = Ok (VFloat f))
  \/ (exists d, format (VStr s) = Ok (VDate d) /\ valid_date d = true)
  \/ format (VStr s) = Ok VNone
  \/ (format (VStr s) = Ok (VStr (strip s))
      /\ (strip s =? "")%string = false /\ (strip s =? "N/A")%string = false
      /\ py_int (replace_del "," (strip s)) = None
      /\ py_float (replace_del "," (strip s)) = None).
Proof.
  rewrite format_str_steps. cbv zeta.
  destruct (py_int _) as [n|] eqn:Ei; [eauto |].
  destruct (py_float _) as [f|] eqn:Ef; [eauto |].
  destruct (strptime (strip s) "%m/%d/%y") as [d|] eqn:E1;
    [right; right; left; eauto using strptime_valid |].
  destruct (strptime (strip s) "%m/%d/%Y") as [d|] eqn:E2;
    [right; right; left; eauto using strptime_valid |].
  destruct (strptime (strip s) "%Y/%m/%d") as [d|] eqn:E3;
    [right; right; left; eauto using strptime_valid |].
  destruct (strip s =? "")%string eqn:Ee; [now right; right; right; left |].
  destruct (strip s =? "N/A")%string eqn:En; [now right; right; right; left |].
  right; right; right; right. cbn [orb]. auto.
Qed.

Lemma lstrip_by_blank sp a s :
  all_chars sp a = true -> lstrip_by sp (a ++ s) = lstrip_by sp s.
Proof.
  induction a as [|c a IH]; [reflexivity |]. cbn [all_chars append lstrip_by].
  intros H. apply andb_prop in H as [-> Ha]. now apply IH.
Qed.

Lemma rstrip_by_all_blank sp b : all_chars sp b = true -> rstrip_by sp b = "".
Proof.
  induction b as [|c b IH]; [reflexivity |]. cbn [all_chars rstrip_by].
  intros H. apply andb_prop in H as [-> Hb]. now rewrite IH.
Qed.

Lemma rstrip_by_blank sp b s :
  all_chars sp b = true -> rstrip_by sp (s ++ b) = rstrip_by sp s.
Proof.
  intros Hb. induction s as [|c s IH]; [now apply rstrip_by_all_blank |].
  cbn [append rstrip_by]. now rewrite IH.
Qed.

Lemma lstrip_by_app sp s b :
  all_chars sp b = true ->
  lstrip_by sp (s ++ b) = lstrip_by sp s ++ b
  \/ (lstrip_by sp s = "" /\ lstrip_by sp (s ++ b) = "").
Proof.
  intros Hb. induction s as [|c s IH].
  - right. split; [reflexivity |]. cbn [append].
    induction b as [|c b IH]; [reflexivity |]. cbn [all_chars lstrip_by] in *.
    apply andb_prop in Hb as [-> Hb]. now apply IH.
  - cbn [append lstrip_by]. destruct (sp c); [exact IH | now left].
Qed.

Lemma strip_blank a s b :
  all_chars isspace a = true -> all_chars isspace b = true ->
  strip (a ++ s ++ b) = strip s.
Proof.
  intros Ha Hb. unfold strip. rewrite lstrip_by_blank by assumption.
  destruct (lstrip_by_app isspace s b Hb) as [-> | [-> ->]]; [| reflexivity].
  now apply rstrip_by_blank.
Qed.

(** X1. [format] raises on a date and on a [bool], Python's or numpy's, and
    on nothing else: the [strip] of a value that is no string is the one
    step that can fail. *)
Theorem format_raises_without_strip v :
  match v with
  | VDate _ | VBool _ | VNpBool _ => format v = Raise AttributeError
  | _ => exists w, format v = Ok w
  end.
Proof.
  destruct v as [|n|f|n|f|d|s|b|b]; try (cbn; eauto; fail).
  - destruct f; cbn; eauto.
  - destruct f; cbn; eauto.
  - destruct (format_str_cases s) as [(n & H) | [(f & H) | [(d & H & _) | [H | (H & _)]]]];
      eauto.
Qed.

(** X2. What [format] returns is never a numpy scalar or a [bool]; a date it returns is a day
    of the calendar; a string it returns is trimmed, is neither empty nor
    "N/A", and reads as no number. *)
Theorem format_result_shape v w :
  format v = Ok w ->
  match w with
  | VNpInt _ | VNpFloat _ | VBool _ | VNpBool _ => False
  | VDate d => valid_date d = true /\ exists s, v = VStr s
  | VStr t =>
      strip t = t /\ (t =? "")%string = false /\ (t =? "N/A")%string = false
      /\ py_int (replace_del "," t) = None /\ py_float (replace_del "," t) = None
  | _ => True
  end.
Proof.
  destruct v as [|n|f|n|f|d|s|b|b].
  - now intros [= <-].
  - now intros [= <-].
  - destruct f; now intros [= <-].
  - now intros [= <-].
  - destruct f; now intros [= <-].
  - discriminate.
  - destruct (format_str_cases s)
      as [(n & H) | [(f & H) | [(d & H & Hd) | [H | (H & He & Hn & Hi & Hf)]]]];
      rewrite H; intros [= <-]; try exact I.
    + split; [exact Hd | eauto].
    + rewrite strip_idem. auto.
  - discriminate.
  - discriminate.
Qed.

Lemma format_result_shape_witness :
  strip "GEO" = "GEO" /\ ("GEO" =? "")%string = false /\ ("GEO" =? "N/A")%string = false
  /\ py_int (replace_del "," "GEO") = None /\ py_float (replace_del "," "GEO") = None.
Proof.
  apply (format_result_shape (VStr "  GEO ") (VStr "GEO")). vm_compute. reflexivity.
Defined.

(** X3. White space around a string never changes what it is coerced to. *)
Theorem format_ignores_outer_space a s b :
  all_chars isspace a = true -> all_chars isspace b = true ->
  format (VStr (a ++ s ++ b)) = format (VStr s).
Proof.
  intros Ha Hb. rewrite <- (format_strip (a ++ s ++ b)), <- (format_strip s).
  now rewrite strip_blank.
Qed.

Lemma format_ignores_outer_space_witness :
  format (VStr (String "009" " " ++ "1,234.5" ++ String "010" ""))
  = format (VStr "1,234.5").
Proof.
  apply (format_ignores_outer_space (String "009" " ") "1,234.5" (String "010" ""));
    reflexivity.
Defined.

(** X4. Coercing a coerced value: it stays as it is, but a date makes [format]
    raise and the float NaN (which the text "nan" is coerced to) becomes
    null. *)
Theorem format_twice v w :
  format v = Ok w ->
  format w = match w with
             | VDate _ => Raise AttributeError
             | VFloat Fnan => Ok VNone
             | _ => Ok w
             end.
Proof.
  destruct v as [|n|f|n|f|d|s|b|b].
  - now intros [= <-].
  - now intros [= <-].
  - destruct f; now intros [= <-].
  - now intros [= <-].
  - destruct f; now intros [= <-].
  - discriminate.
  - destruct (format_str_cases s)
      as [(n & H) | [(f & H) | [(d & H & Hd) | [H | (H & _)]]]];
      rewrite H; intros [= <-]; try reflexivity.
    + now destruct f.
    + now rewrite format_strip.
  - discriminate.
  - discriminate.
Qed.

Lemma format_twice_witness :
  format (VDate (mkdate 2019 4 1)) = Raise AttributeError
  /\ format (VFloat Fnan) = Ok VNone
  /\ format (VStr "LEO") = Ok (VStr "LEO").
Proof.
  split; [| split].
  - apply (format_twice (VStr "04/01/2019") (VDate (mkdate 2019 4 1))).
    vm_compute. reflexivity.
  - apply (format_twice (VStr " nan") (VFloat Fnan)). vm_compute. reflexivity.
  - apply (format_twice (VStr " LEO ") (VStr "LEO")). vm_compute. reflexivity.
Defined.

(** * Loading the catalogue and handing rows to the sink *)

Lemma format_total v : no_strip v = false -> exists w, format v = Ok w.
Proof.
  destruct v as [|n|f|n|f|d|s|b|b]; intros H; try discriminate H; try (cbn; eauto; fail).
  - destruct f; cbn; eauto.
  - destruct f; cbn; eauto.
  - destruct (format_str_cases s) as [(n & E) | [(f & E) | [(d & E & _) | [E | (E & _)]]]];
      eauto.
Qed.

Lemma format_raise v e : format v = Raise e -> e = AttributeError /\ no_strip v = true.
Proof.
  destruct v as [|n|f|n|f|d|s|b|b]; try discriminate.
  - destruct f; discriminate.
  - destruct f; discriminate.
  - now intros [= <-].
  - destruct (format_str_cases s) as [(n & E) | [(f & E) | [(d & E & _) | [E | (E & _)]]]];
      rewrite E; discriminate.
  - now intros [= <-].
  - now intros [= <-].
Qed.

Section MapM.
Context {A B : Type} (f : A -> result B).

Lemma mapM_all_ok l :
  (forall x, In x l -> exists y, f x = Ok y) -> exists ys, mapM f l = Ok ys.
Proof.
  induction l as [|x l IH]; intros H; [now exists [] |].
  destruct (H x (or_introl eq_refl)) as (y & Hy).
  destruct IH as (ys & Hys); [intros z Hz; apply H; now right |].
  exists (y :: ys). cbn [mapM]. now rewrite Hy, Hys.
Qed.

Lemma mapM_one_raises l e :
  (forall x e', In x l -> f x = Raise e' -> e' = e) ->
  (exists x e', In x l /\ f x = Raise e') ->
  mapM f l = Raise e.
Proof.
  induction l as [|x l IH]; intros Hall (z & e' & Hin & Hz); [contradiction |].
  cbn [mapM]. destruct (f x) as [y | e0] eqn:Hx; cbn [bind].
  - destruct Hin as [-> | Hin]; [congruence |].
    rewrite IH; [reflexivity | | eauto].
    intros x0 e0 H0. apply Hall. now right.
  - f_equal. apply (Hall x e0); [now left | exact Hx].
Qed.

Lemma mapM_nth l ys :
  mapM f l = Ok ys ->
  forall k x, nth_error l k = Some x -> exists y, nth_error ys k = Some y /\ f x = Ok y.
Proof.
  revert ys. induction l as [|a l IH]; intros ys H k x Hk; [now destruct k |].
  cbn [mapM] in H. destruct (f a) as [b | e] eqn:Ha; cbn [bind] in H; [| discriminate].
  destruct (mapM f l) as [bs | e] eqn:Hl; cbn [bind] in H; [| discriminate].
  injection H as <-. destruct k as [|k]; cbn [nth_error] in *.
  - injection Hk as <-. eauto.
  - now apply (IH bs eq_refl).
Qed.
End MapM.

Lemma forallb_false_ex {A : Type} (p : A -> bool) l :
  forallb p l = false -> exists x, In x l /\ p x = false.
Proof.
  induction l as [|x l IH]; [discriminate |]. cbn [forallb].
  destruct (p x) eqn:E; cbn [andb].
  - intros H. destruct (IH H) as (z & Hz & Hp). exists z. split; [now right | exact Hp].
  - intros _. exists x. split; [now left | exact E].
Qed.

(** The cells of a line of the catalogue, coerced: what one turn of the
    loop of [load_celestrak_satcat_data] appends. *)
Lemma load_line_ok line :
  (22 <= String.length line)%nat ->
  exists cells,
    (row <- parse_celestrak_row line ;; mapM format row) = Ok cells
    /\ List.length cells = 16%nat.
Proof.
  intros H. destruct (parse_long_line line H) as (c & ->). cbn [bind].
  destruct (mapM_all_ok format
              [VStr (slice 0 11 line); VStr (slice 13 18 line); VInt 1; VInt 1;
               VStr (String c ""); VStr (slice 23 47 line); VStr (slice 49 54 line);
               VStr (slice 56 66 line); VStr (slice 69 73 line); VStr (slice 75 85 line);
               VStr (slice 87 94 line); VStr (slice 96 101 line);
               VStr (slice 103 109 line); VStr (slice 111 117 line);
               VStr (slice 119 127 line); VStr (slice 129 132 line)])
    as (cells & Hcells).
  { intros x Hx. apply format_total. cbn [In] in Hx.
    repeat (destruct Hx as [<- | Hx]; [reflexivity |]). contradiction. }
  exists cells. split; [exact Hcells |]. now apply mapM_length in Hcells.
Qed.

Lemma load_line_raise line e :
  (row <- parse_celestrak_row line ;; mapM format row) = Raise e ->
  e = IndexError /\ (String.length line < 22)%nat.
Proof.
  destruct (Nat.le_gt_cases 22 (String.length line)) as [H | H].
  - destruct (load_line_ok line H) as (cells & -> & _). discriminate.
  - rewrite parse_short_line by assumption. cbn [bind]. now intros [= <-].
Qed.

(** X8. The catalogue loads when every line has 22 characters or more, one row
    a line; one shorter line makes it raise [IndexError]. *)
Theorem load_needs_22_characters lines :
  if forallb (fun line => 22 <=? String.length line)%nat lines
  then exists satcat,
      load_celestrak_satcat_data lines = Ok satcat
      /\ List.length satcat = List.length lines
  else load_celestrak_satcat_data lines = Raise IndexError.
Proof.
  unfold load_celestrak_satcat_data.
  destruct (forallb _ lines) eqn:E.
  - destruct (mapM_all_ok (fun line => row <- parse_celestrak_row line ;; mapM format row)
                lines) as (data & Hdata).
    { intros line Hin. rewrite forallb_forall in E. specialize (E line Hin).
      apply Nat.leb_le in E. destruct (load_line_ok line E) as (cells & Hc & _). eauto. }
    rewrite Hdata. cbn [bind]. eexists. split; [reflexivity |].
    rewrite length_map. now apply mapM_length in Hdata.
  - rewrite (mapM_one_raises _ lines IndexError); [reflexivity | |].
    + intros line e _ H. now apply load_line_raise in H.
    + destruct (forallb_false_ex _ _ E) as (line & Hin & Hshort).
      apply Nat.leb_gt in Hshort. exists line, IndexError. split; [exact Hin |].
      now rewrite parse_short_line.
Qed.

Lemma savable_ok row :
  existsb no_strip row = false ->
  exists cells,
    savable row = Ok (cells ++ [VStr (record_fingerprint row)])%list
    /\ mapM format row = Ok cells /\ List.length cells = List.length row.
Proof.
  intros H. unfold savable.
  destruct (mapM_all_ok format row) as (cells & Hcells).
  { intros v Hv. apply format_total. destruct (no_strip v) eqn:E; [| reflexivity].
    assert (existsb no_strip row = true) by (apply existsb_exists; eauto). congruence. }
  rewrite Hcells. cbn [bind]. exists cells.
  split; [reflexivity | split; [reflexivity |]]. now apply mapM_length in Hcells.
Qed.

Lemma savable_raise row : existsb no_strip row = true -> savable row = Raise AttributeError.
Proof.
  intros H. unfold savable. apply existsb_exists in H as (v & Hin & Hv).
  rewrite (mapM_one_raises format row AttributeError); [reflexivity | |].
  - intros x e _ Hx. now apply format_raise in Hx.
  - exists v, AttributeError. split; [exact Hin |].
    destruct v; try discriminate Hv; reflexivity.
Qed.

(** X11. The batch for the sink has one row for each row of the frame, each with
    one cell more than the frame has columns; a date or a [bool] anywhere in
    the frame makes the whole batch raise [AttributeError]. *)
Theorem data_batch_shape {C : Type} (columns : list C) (df : DataFrame C) :
  if existsb (existsb no_strip) (itertuples columns df)
  then data_batch columns df = Raise AttributeError
  else exists batch,
      data_batch columns df = Ok batch
      /\ List.length batch = List.length df
      /\ Forall (fun cells => List.length cells = S (List.length columns)) batch.
Proof.
  unfold data_batch. destruct (existsb _ (itertuples columns df)) eqn:E.
  - apply mapM_one_raises.
    + intros row e _ H. destruct (existsb no_strip row) eqn:Er.
      * rewrite savable_raise in H by assumption. congruence.
      * destruct (savable_ok row Er) as (cells & Hs & _). congruence.
    + apply existsb_exists in E as (row & Hin & Hrow).
      exists row, AttributeError. split; [exact Hin | now apply savable_raise].
  - assert (forall row, In row (itertuples columns df) -> existsb no_strip row = false) as Hno.
    { intros row Hin. destruct (existsb no_strip row) eqn:Er; [| reflexivity].
      assert (existsb (existsb no_strip) (itertuples columns df) = true)
        by (apply existsb_exists; eauto). congruence. }
    destruct (mapM_all_ok savable (itertuples columns df)) as (batch & Hbatch).
    { intros row Hin. destruct (savable_ok row (Hno row Hin)) as (cells & Hs & _). eauto. }
    exists batch. split; [exact Hbatch |]. split.
    + apply mapM_length in Hbatch. unfold itertuples in Hbatch. now rewrite length_map in Hbatch.
    + apply Forall_forall. intros out Hin.
      destruct (In_nth_error _ _ Hin) as (k & Hk).
      assert (exists row, nth_error (itertuples columns df) k = Some row) as (row & Hrow).
      { destruct (nth_error (itertuples columns df) k) as [row|] eqn:El; [eauto |].
        apply nth_error_None in El. apply mapM_length in Hbatch.
        assert (k < List.length batch)%nat by (apply nth_error_Some; congruence). lia. }
      destruct (mapM_nth _ _ _ Hbatch k row Hrow) as (out' & Hk' & Hout).
      assert (out' = out) as -> by congruence.
      assert (In row (itertuples columns df)) as Hinr by now apply nth_error_In with k.
      destruct (savable_ok row (Hno row Hinr)) as (cells & Hs & _ & Hlen).
      rewrite Hs in Hout. injection Hout as <-.
      rewrite length_app, Hlen. cbn [List.length].
      unfold itertuples in Hinr. apply in_map_iff in Hinr as (r & <- & _).
      rewrite length_map. lia.
Qed.

(** * What the parser reads *)

Lemma substring_app s t : forall a n,
  (a + n <= String.length s)%nat -> substring a n (s ++ t) = substring a n s.
Proof.
  induction s as [|c s IH]; intros a n H; cbn [String.length] in H.
  - assert (a = 0 /\ n = 0)%nat as [-> ->] by lia. now destruct t.
  - destruct a as [|a]; cbn [append substring].
    + destruct n as [|n]; [reflexivity |]. f_equal. apply IH. lia.
    + apply IH. lia.
Qed.

Lemma get_app s t : forall i, (i < String.length s)%nat -> get i (s ++ t) = get i s.
Proof.
  induction s as [|c s IH]; intros i H; cbn [String.length] in H; [lia |].
  destruct i as [|i]; cbn [append get]; [reflexivity |]. apply IH. lia.
Qed.

Lemma slice_app a b s t : (a <= b <= String.length s)%nat -> slice a b (s ++ t) = slice a b s.
Proof. intros H. unfold slice. apply substring_app. lia. Qed.

Lemma index_app i s t : (i < String.length s)%nat -> index i (s ++ t) = index i s.
Proof. intros H. unfold index. now rewrite get_app. Qed.

(** X7. The parser reads the first 132 characters of a line and nothing after
    them. *)
Theorem parse_reads_132_characters line more :
  (132 <= String.length line)%nat ->
  parse_celestrak_row (line ++ more) = parse_celestrak_row line.
Proof.
  intros H. unfold parse_celestrak_row.
  rewrite !index_app by lia. rewrite !slice_app by lia. reflexivity.
Qed.

Lemma parse_reads_132_characters_witness :
  parse_celestrak_row
    ("1957-001A    00001   D SL-1 R/B                  CIS    1957-10-04  TYMSC  1957-12-01     96.1   65.1     938     214   20.4200     "
       ++ " a remark")
  = parse_celestrak_row
      "1957-001A    00001   D SL-1 R/B                  CIS    1957-10-04  TYMSC  1957-12-01     96.1   65.1     938     214   20.4200     ".
Proof. apply parse_reads_132_characters. vm_compute. lia. Defined.

(** * The years a two-digit year can stand for *)

Lemma first_some_inv {A B : Type} (f : A -> option B) l b :
  first_some f l = Some b -> exists a, In a l /\ f a = Some b.
Proof.
  induction l as [|a l IH]; [discriminate |]. cbn [first_some].
  destruct (f a) as [b'|] eqn:E.
  - intros [= <-]. exists a. split; [now left | exact E].
  - intros H. destruct (IH H) as (a' & Hin & Ha'). exists a'. split; [now right | exact Ha'].
Qed.

(** A match of a pattern: one alternative of its first directive, then a
    match of the rest. *)
Lemma match_re_cons d ds s groups r :
  match_re (d :: ds) s = Some (groups, r) ->
  exists al txt rest groups',
    In al (alternatives d) /\ match_atoms al s = Some (txt, rest)
    /\ match_re ds rest = Some (groups', r) /\ groups = (d, txt) :: groups'.
Proof.
  cbn [match_re]. intros H. apply first_some_inv in H as (al & Hin & H).
  destruct (match_atoms al s) as [[txt rest]|] eqn:Ea; [| discriminate].
  destruct (match_re ds rest) as [[groups' r']|] eqn:Er; [| discriminate].
  injection H as <- <-. exists al, txt, rest, groups'. repeat split; assumption || reflexivity.
Qed.

Lemma match_two_digits s txt rest :
  match_atoms [Digit; Digit] s = Some (txt, rest) ->
  exists c1 c2,
    txt = String c1 (String c2 "") /\ is_digit c1 = true /\ is_digit c2 = true.
Proof.
  destruct s as [|c1 [|c2 s]]; cbn [match_atoms atom_ok]; try discriminate.
  - destruct (is_digit c1); discriminate.
  - destruct (is_digit c1) eqn:E1; [| discriminate].
    destruct (is_digit c2) eqn:E2; [| discriminate].
    intros [= <- <-]. eauto.
Qed.

Lemma py_int_two_chars c1 c2 :
  is_digit c1 = true -> is_digit c2 = true ->
  exists n, py_int (String c1 (String c2 "")) = Some n /\ 0 <= n <= 99.
Proof.
  intros H1 H2. pose proof H1 as D1. pose proof H2 as D2.
  unfold is_digit in D1, D2.
  destruct (digit_val c1) as [d1|] eqn:E1; [| discriminate].
  destruct (digit_val c2) as [d2|] eqn:E2; [| discriminate].
  apply digit_val_bound in E1 as B1. apply digit_val_bound in E2 as B2.
  exists (10 * (10 * 0 + d1) + d2). split; [| lia].
  apply py_int_digits; [exact H1 | unfold int_max_str_digits; cbn; lia |].
  rewrite (int_digits_step _ _ _ d1), (int_digits_step _ _ _ d2) by assumption.
  now apply int_digits_end.
Qed.

Lemma new_date_year y m d dt : new_date y m d = Some dt -> year dt = y.
Proof. unfold new_date. destruct (_ && _); [| discriminate]. now intros [= <-]. Qed.

(** X5. Whatever string the two-digit-year pattern reads as a date, the year of
    the date lies between 1969 and 2068. *)
Theorem two_digit_year_window data d :
  strptime data "%m/%d/%y" = Some d -> 1969 <= year d <= 2068.
Proof.
  unfold strptime. rewrite directives_mdy.
  destruct (match_re _ data) as [[groups [|c r]]|] eqn:E; try discriminate.
  apply match_re_cons in E as (al1 & t1 & r1 & g1 & _ & _ & E & ->).
  apply match_re_cons in E as (al2 & t2 & r2 & g2 & _ & _ & E & ->).
  apply match_re_cons in E as (al3 & t3 & r3 & g3 & _ & _ & E & ->).
  apply match_re_cons in E as (al4 & t4 & r4 & g4 & _ & _ & E & ->).
  apply match_re_cons in E as (al5 & t5 & r5 & g5 & Hin & Hy & E & ->).
  cbn [match_re] in E. injection E as <- _.
  cbn [alternatives In] in Hin. destruct Hin as [<- | []].
  apply match_two_digits in Hy as (c1 & c2 & -> & H1 & H2).
  destruct (py_int_two_chars c1 c2 H1 H2) as (n & Hn & Hb).
  cbn [read_groups].
  destruct (py_int t1) as [n1|]; [| discriminate].
  destruct (py_int t3) as [n3|]; [| discriminate].
  rewrite Hn. intros H. apply new_date_year in H. rewrite H.
  destruct (n <=? 68) eqn:En; [apply Z.leb_le in En | apply Z.leb_gt in En]; lia.
Qed.

Lemma two_digit_year_window_witness : 1969 <= year (mkdate 1969 7 20) <= 2068.
Proof. apply (two_digit_year_window "7/20/69"). vm_compute. reflexivity. Defined.

(** * No date without a slash *)


Lemma match_atoms_split al : forall s txt rest,
  match_atoms al s = Some (txt, rest) -> s = txt ++ rest.
Proof.
  induction al as [|a al IH]; intros s txt rest; cbn [match_atoms].
  - now intros [= <- <-].
  - destruct s as [|c s]; [discriminate |].
    destruct (atom_ok a c); [| discriminate].
    destruct (match_atoms al s) as [[txt' rest']|] eqn:E; [| discriminate].
    intros [= <- <-]. cbn [append]. f_equal. now apply IH.
Qed.

Lemma match_re_needs_slash d ds s groups r :
  match_re (d :: lit "/" :: ds) s = Some (groups, r) -> all_chars no_slash s = false.
Proof.
  intros H.
  apply match_re_cons in H as (al1 & t1 & r1 & g1 & _ & H1 & H & _).
  apply match_re_cons in H as (al2 & t2 & r2 & g2 & Hin & H2 & _ & _).
  cbn [alternatives In] in Hin. destruct Hin as [<- | []].
  apply match_atoms_split in H1 as ->.
  destruct r1 as [|c r1]; cbn [match_atoms atom_ok] in H2; [discriminate |].
  destruct (c =? "/")%char eqn:E; [| discriminate].
  rewrite all_chars_app. cbn [all_chars]. unfold no_slash at 2. rewrite E.
  cbn [negb andb]. apply andb_false_r.
Qed.

Lemma strptime_needs_slash data fmt d :
  fmt = "%m/%d/%y" \/ fmt = "%m/%d/%Y" \/ fmt = "%Y/%m/%d" ->
  strptime data fmt = Some d -> all_chars no_slash data = false.
Proof.
  intros Hfmt. unfold strptime.
  assert (exists d1 ds, directives fmt = Some (d1 :: lit "/" :: ds)) as (d1 & ds & ->).
  { destruct Hfmt as [-> | [-> | ->]]; cbn; eauto. }
  destruct (match_re _ data) as [[groups r]|] eqn:E; [| discriminate].
  intros _. now apply match_re_needs_slash in E.
Qed.

Lemma all_chars_lstrip p sp s : all_chars p s = true -> all_chars p (lstrip_by sp s) = true.
Proof.
  induction s as [|c s IH]; [reflexivity |]. cbn [all_chars lstrip_by].
  intros H. apply andb_prop in H as [Hc Hs].
  destruct (sp c); [now apply IH |]. cbn [all_chars]. now rewrite Hc, Hs.
Qed.

Lemma all_chars_rstrip p sp s : all_chars p s = true -> all_chars p (rstrip_by sp s) = true.
Proof.
  induction s as [|c s IH]; [reflexivity |]. cbn [all_chars rstrip_by].
  intros H. apply andb_prop in H as [Hc Hs]. specialize (IH Hs).
  destruct (rstrip_by sp s) as [|c' s'].
  - destruct (sp c); [reflexivity |]. cbn [all_chars]. now rewrite Hc.
  - cbn [all_chars] in *. now rewrite Hc, IH.
Qed.

(** X6. A string is coerced to a date only if it has a slash in it: a date
    written with dashes, as the catalogue writes its dates, is never a
    date after coercion. *)
Theorem no_slash_no_date s w :
  all_chars no_slash s = true -> format (VStr s) = Ok w -> is_date w = false.
Proof.
  intros Hs. assert (all_chars no_slash (strip s) = true) as Hst.
  { unfold strip. now apply all_chars_rstrip, all_chars_lstrip. }
  rewrite format_str_steps. cbv zeta.
  destruct (py_int _); [now intros [= <-] |].
  destruct (py_float _); [now intros [= <-] |].
  destruct (strptime (strip s) "%m/%d/%y") as [d|] eqn:E1.
  { apply strptime_needs_slash in E1; [congruence | auto]. }
  destruct (strptime (strip s) "%m/%d/%Y") as [d|] eqn:E2.
  { apply strptime_needs_slash in E2; [congruence | auto]. }
  destruct (strptime (strip s) "%Y/%m/%d") as [d|] eqn:E3.
  { apply strptime_needs_slash in E3; [congruence | auto]. }
  destruct (_ || _); now intros [= <-].
Qed.

Lemma no_slash_no_date_witness : is_date (VStr "1957-10-04") = false.
Proof.
  apply (no_slash_no_date " 1957-10-04" (VStr "1957-10-04")); vm_compute; reflexivity.
Defined.

(** * An empty catalogue, and the letters of a fingerprint *)


Lemma loc_empty {C : Type} key : loc (@nil (Series C)) key = Raise KeyError.
Proof.
  assert (forall k, (0 <=? k) && (k <? Z.of_nat (@List.length (Series C) [])) = false)
    as Hout.
  { intros k. cbn [List.length Z.of_nat]. destruct (0 <=? k) eqn:E; [| reflexivity].
    apply Z.leb_le in E. apply Z.ltb_ge. lia. }
  unfold loc. destruct key as [|k|f|k|f|d|s|b|b]; try reflexivity;
    try (destruct (float_integral f) as [k|]; [| reflexivity]); now rewrite Hout.
Qed.

(** X14. With an empty catalogue nothing is found: the registry comes back as it
    was, with one warning for each of its rows. *)
Theorem empty_catalogue_changes_nothing satdb randint :
  forallb (fun row => negb (no_strip (row Satdb.norad_number))) satdb = true ->
  exists warns,
    fix_discrepencies satdb [] randint = Ok (satdb, warns)
    /\ List.length warns = List.length satdb.
Proof.
  intros Hkeys.
  assert (forall row, In row satdb -> exists key, look_up [] row = Miss key) as Hmiss.
  { intros row Hin. rewrite forallb_forall in Hkeys. specialize (Hkeys row Hin).
    apply negb_true_iff in Hkeys. destruct (format_total _ Hkeys) as (key & Hkey).
    exists key. apply look_up_miss with KeyError; [exact Hkey | apply loc_empty]. }
  assert (forallb (no_crash []) satdb = true) as Hok.
  { apply forallb_forall. intros row Hin. unfold no_crash.
    destruct (Hmiss row Hin) as (key & ->). reflexivity. }
  destruct (fix_discrepencies_spec satdb [] randint Hok) as (frame' & Hrun & Hlen & Hat).
  assert (frame' = satdb) as ->.
  { apply nth_error_ext. intros k. destruct (nth_error satdb k) as [row|] eqn:Hk.
    - transitivity (Some row); [| symmetry; exact Hk].
      rewrite (Hat k row Hk). f_equal.
      destruct (Hmiss row (nth_error_In _ _ Hk)) as (key & E).
      now apply patch_miss with key.
    - transitivity (@None (Series Satdb.column)); [| symmetry; exact Hk].
      apply nth_error_None in Hk. apply nth_error_None. rewrite Hlen. exact Hk. }
  exists (missed [] satdb). split; [exact Hrun |].
  pose proof (hits_and_misses [] satdb Hok) as Hsum.
  assert (hits [] satdb = 0%nat) as Hz; [| rewrite Hz in Hsum; exact Hsum].
  unfold hits. clear - Hmiss. induction satdb as [|row rows IH]; [reflexivity |].
  cbn [filter]. unfold is_hit at 1.
  destruct (Hmiss row (or_introl eq_refl)) as (key & ->).
  apply IH. intros r Hr. apply Hmiss. now right.
Qed.

Lemma empty_catalogue_changes_nothing_witness :
  exists warns,
    fix_discrepencies
      [registry_row "Sputnik rocket" (VNpInt 1); registry_row "Unlisted" (VNpFloat Fnan)]
      [] (fun _ => 1)
    = Ok ([registry_row "Sputnik rocket" (VNpInt 1);
           registry_row "Unlisted" (VNpFloat Fnan)], warns)
    /\ List.length warns = 2%nat.
Proof.
  apply (empty_catalogue_changes_nothing
           [registry_row "Sputnik rocket" (VNpInt 1);
            registry_row "Unlisted" (VNpFloat Fnan)] (fun _ => 1)).
  reflexivity.
Defined.

Lemma hex_digit_is_hex n : 0 <= n < 16 -> is_hex (hex_digit n) = true.
Proof.
  intros H. rewrite <- (Z2Nat.id n) by lia.
  assert (Z.to_nat n < 16)%nat as Hlt by lia.
  revert Hlt. generalize (Z.to_nat n) as k. intros k Hlt.
  do 16 (destruct k as [|k]; [reflexivity |]). lia.
Qed.

Lemma hexdigest_is_hex bytes :
  Forall (fun b => 0 <= b < 256) bytes -> all_chars is_hex (hexdigest bytes) = true.
Proof.
  induction 1 as [|b bytes Hb _ IH]; [reflexivity |].
  cbn [hexdigest all_chars]. rewrite IH, !hex_digit_is_hex; [reflexivity | |].
  - change 0xf with (Z.ones 4). rewrite Z.land_ones by lia.
    apply Z.mod_pos_bound. lia.
  - rewrite Z.shiftr_div_pow2 by lia. change (2 ^ 4) with 16.
    split; [apply Z.div_pos; lia | apply Z.div_lt_upper_bound; lia].
Qed.

Lemma le_bytes_range n : forall x, Forall (fun b => 0 <= b < 256) (le_bytes n x).
Proof.
  induction n as [|n IH]; intros x; cbn [le_bytes]; constructor; [| apply IH].
  change 0xff with (Z.ones 8). rewrite Z.land_ones by lia. apply Z.mod_pos_bound. lia.
Qed.

(** X15. A fingerprint is written with the digits and the letters a to f and
    nothing else. *)
Theorem fingerprint_is_lower_hex line : all_chars is_hex (fingerprint_line line) = true.
Proof.
  unfold fingerprint_line. apply hexdigest_is_hex. unfold md5. cbv zeta.
  destruct (fold_left md5_block _ _) as [[[a b] c] d].
  repeat (apply Forall_app; split); apply le_bytes_range.
Qed.
